(** * The search front end: summary fetcher, result fetchers, session state

    A shallow embedding of the fetch/retry/render kernel of the search
    interface (components/search/ai-summary.tsx, the text and image result
    components and the search-interface component) and the properties the
    specification states about it.

    Part I holds the definitions, Part II the theorems. *)

From Stdlib Require Import List NArith ZArith Bool Ascii String Arith Lia.
From Stdlib Require Import Numbers.DecimalString.
Import ListNotations.

Set Warnings "-register-all".

(* ===================================================================== *)
(** * Part I.  Definitions                                                *)
(* ===================================================================== *)

(** ** JavaScript strings and values

    A JavaScript string is a sequence of UTF-16 code units; a code unit is a
    number below 65536. *)

Module JS.

Local Open Scope N_scope.

Definition jsstr := list N.

(** An ASCII literal of the source, as code units. *)
Definition lit (s : string) : jsstr :=
  map N_of_ascii (list_ascii_of_string s).

Definition eqb (a b : jsstr) : bool :=
  if list_eq_dec N.eq_dec a b then true else false.

(** [s.startsWith(p)], by code units. *)
Fixpoint startsWith (s p : jsstr) {struct p} : bool :=
  match p, s with
  | [], _ => true
  | _ :: _, [] => false
  | a :: p', b :: s' => N.eqb a b && startsWith s' p'
  end.

(** [s.includes(p)]: [p] occurs in [s] at some position. *)
Fixpoint includes (s p : jsstr) : bool :=
  startsWith s p ||
  match s with
  | [] => false
  | _ :: s' => includes s' p
  end.

(** ECMAScript LineTerminator code points: LF, CR, LS, PS. *)
Definition isLineTerminator (c : N) : bool :=
  N.eqb c 10 || N.eqb c 13 || N.eqb c 8232 || N.eqb c 8233.

(** ECMAScript WhiteSpace code points: TAB, VT, FF, SP, NBSP, ZWNBSP and the
    Unicode category Zs. *)
Definition isWhiteSpace (c : N) : bool :=
  N.eqb c 9 || N.eqb c 11 || N.eqb c 12 || N.eqb c 32 || N.eqb c 160 ||
  N.eqb c 5760 || (N.leb 8192 c && N.leb c 8202) || N.eqb c 8239 ||
  N.eqb c 8287 || N.eqb c 12288 || N.eqb c 65279.

(** What [String.prototype.trim] strips. *)
Definition isTrimmed (c : N) : bool := isWhiteSpace c || isLineTerminator c.

Fixpoint trimStart (s : jsstr) : jsstr :=
  match s with
  | [] => []
  | c :: s' => if isTrimmed c then trimStart s' else s
  end.

Definition trimEnd (s : jsstr) : jsstr := rev (trimStart (rev s)).

Definition trim (s : jsstr) : jsstr := trimEnd (trimStart s).

(** [a || b] on strings: the empty string is the only falsy one. *)
Definition orElse (a b : jsstr) : jsstr :=
  match a with
  | [] => b
  | _ :: _ => a
  end.

(** Decimal rendering of a number in a template literal. *)
Definition decimalN (n : N) : jsstr := lit (NilEmpty.string_of_uint (N.to_uint n)).
Definition decimalZ (z : Z) : jsstr := lit (NilEmpty.string_of_int (Z.to_int z)).

(** *** encodeURIComponent *)

Definition inRange (lo hi c : N) : bool := N.leb lo c && N.leb c hi.

(** The characters [encodeURIComponent] leaves alone:
    letters, digits and [- _ . ! ~ * ' ( )]. *)
Definition isUnreserved (c : N) : bool :=
  inRange 65 90 c || inRange 97 122 c || inRange 48 57 c ||
  existsb (N.eqb c) [45; 95; 46; 33; 126; 42; 39; 40; 41].

Definition hexDigit (n : N) : N :=
  if N.ltb n 10 then 48 + n else 55 + n.

Definition percent (byte : N) : jsstr :=
  [37; hexDigit (byte / 16); hexDigit (byte mod 16)].

Definition utf8 (cp : N) : list N :=
  if N.ltb cp 128 then [cp]
  else if N.ltb cp 2048 then [192 + cp / 64; 128 + cp mod 64]
  else if N.ltb cp 65536 then
    [224 + cp / 4096; 128 + (cp / 64) mod 64; 128 + cp mod 64]
  else
    [240 + cp / 262144; 128 + (cp / 4096) mod 64;
     128 + (cp / 64) mod 64; 128 + cp mod 64].

Definition isHighSurrogate (c : N) : bool := inRange 55296 56319 c.
Definition isLowSurrogate (c : N) : bool := inRange 56320 57343 c.

(** [None] is the URIError raised on a lone surrogate. *)
Fixpoint encodeURIComponent (s : jsstr) : option jsstr :=
  match s with
  | [] => Some []
  | c :: s' =>
      if isUnreserved c then option_map (cons c) (encodeURIComponent s')
      else if isLowSurrogate c then None
      else if isHighSurrogate c then
        match s' with
        | d :: s'' =>
            if isLowSurrogate d then
              option_map
                (app (flat_map percent
                        (utf8 (65536 + (c - 55296) * 1024 + (d - 56320)))))
                (encodeURIComponent s'')
            else None
        | [] => None
        end
      else option_map (app (flat_map percent (utf8 c))) (encodeURIComponent s')
  end.

(** *** Decoded JSON

    What [response.json()] resolves to.  Numbers are restricted to the
    integers; an object is its list of own properties, each key once. *)

Inductive json : Type :=
| JNull
| JBool (b : bool)
| JNum (z : Z)
| JStr (s : jsstr)
| JArr (xs : list json)
| JObj (fields : list (jsstr * json)).

(** A JavaScript value met by this code: a decoded JSON value, or
    [undefined] ([None]). *)
Definition value := option json.

Definition undefined : value := None.

(** ToBoolean. *)
Definition truthy (v : value) : bool :=
  match v with
  | None => false
  | Some JNull => false
  | Some (JBool b) => b
  | Some (JNum z) => negb (Z.eqb z 0)
  | Some (JStr s) => match s with [] => false | _ :: _ => true end
  | Some (JArr _) => true
  | Some (JObj _) => true
  end.

(** [a || b] on values. *)
Definition vor (a b : value) : value := if truthy a then a else b.

Fixpoint lookup (k : jsstr) (fields : list (jsstr * json)) : value :=
  match fields with
  | [] => None
  | (k', v) :: rest => if eqb k k' then Some v else lookup k rest
  end.

(** The result of an expression that may throw: the thrown error's message,
    or the value. *)
Inductive completion (A : Type) : Type :=
| Throw (message : jsstr)
| Return (a : A).
Arguments Throw {A} message.
Arguments Return {A} a.

(** The TypeError message of a property read on [null] or [undefined]
    (the wording is V8's). *)
Definition cannotRead (what prop : jsstr) : jsstr :=
  lit "Cannot read properties of " ++ what ++ lit " (reading '" ++ prop ++ lit "')".

(** [v.prop], for the property names this code reads ([results], [choices],
    [message], [content], [error], [total_results], [execution_time]): none
    of them is a property of a string, array, number or boolean. *)
Definition getProp (v : value) (prop : jsstr) : completion value :=
  match v with
  | None => Throw (cannotRead (lit "undefined") prop)
  | Some JNull => Throw (cannotRead (lit "null") prop)
  | Some (JObj fields) => Return (lookup prop fields)
  | Some _ => Return undefined
  end.

(** [v?.prop]: [undefined] on [null] and [undefined], [v.prop] otherwise. *)
Definition optProp (v : value) (prop : jsstr) : value :=
  match v with
  | Some (JObj fields) => lookup prop fields
  | _ => undefined
  end.

(** [v?.[0]]. *)
Definition optIndex0 (v : value) : value :=
  match v with
  | Some (JArr xs) => nth_error xs 0%nat
  | Some (JStr (c :: _)) => Some (JStr [c])
  | Some (JObj fields) => lookup (lit "0") fields
  | _ => undefined
  end.

(** ToString, as applied by [new Error(v)] and by template literals. *)
Fixpoint toString (v : json) : jsstr :=
  match v with
  | JNull => lit "null"
  | JBool true => lit "true"
  | JBool false => lit "false"
  | JNum z => decimalZ z
  | JStr s => s
  | JArr xs =>
      (fix join (l : list json) : jsstr :=
         match l with
         | [] => []
         | x :: r =>
             let e := match x with JNull => [] | _ => toString x end in
             match r with
             | [] => e
             | _ :: _ => e ++ lit "," ++ join r
             end
         end) xs
  | JObj _ => lit "[object Object]"
  end.

(** *** The network

    What the awaited [fetch(...)] and [response.json()] produce: the fetch
    rejects, or a response arrives with a status and a body that decodes or
    does not. *)

Inductive Body : Type :=
| BodyInvalid (message : jsstr)
| BodyJson (data : json).

Inductive Fetched : Type :=
| Rejected (message : jsstr)
| Responded (status : N) (body : Body).

(** [response.ok]. *)
Definition ok (status : N) : bool := inRange 200 299 status.

End JS.

(** ** The AI summary panel (components/search/ai-summary.tsx) *)

Module AiSummary.

Import JS.

Definition API_KEYS : list jsstr :=
  [ lit "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";
    lit "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";
    lit "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";
    lit "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";
    lit "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";
    lit "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";
    lit "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" ].

(** AiSummaryProps; [onSummaryComplete] records whether the callback is
    given. *)
Record Props : Type := {
  query : jsstr;
  onSummaryComplete : bool;
  apiKeyIndex : nat
}.

(** The component's four state cells. *)
Record State : Type := {
  summary : jsstr;
  loading : bool;
  error : option jsstr;
  currentApiKeyIndex : nat
}.

Definition initial (p : Props) : State :=
  {| summary := []; loading := false; error := None;
     currentApiKeyIndex := apiKeyIndex p |}.

(** *** renderMarkdown

    [text.replace(/\*\*(.*?)\*\*/g, "<strong>$1</strong>")
         .replace(/\n/g, "<br/>")] *)

(** What remains of [s] after a leading [**]. *)
Definition afterStars (s : jsstr) : option jsstr :=
  match s with
  | 42%N :: 42%N :: rest => Some rest
  | _ => None
  end.

(** [(.*?)\*\*] at the head of [s]: the shortest run of characters accepted
    by [dot] after which [**] stands; the run and the text after the
    marker. *)
Fixpoint closeBold (dot : N -> bool) (s : jsstr) : option (jsstr * jsstr) :=
  match afterStars s with
  | Some rest => Some ([], rest)
  | None =>
      match s with
      | [] => None
      | c :: s' =>
          if dot c then
            match closeBold dot s' with
            | Some (x, rest) => Some (c :: x, rest)
            | None => None
            end
          else None
      end
  end.

(** One attempt to match [\*\*(.*?)\*\*] at the head of [s]. *)
Definition matchBold (dot : N -> bool) (s : jsstr) : option (jsstr * jsstr) :=
  match afterStars s with
  | Some s' => closeBold dot s'
  | None => None
  end.

(** The global replace: scan from the left; at a match emit the replacement
    and go on after the match, otherwise copy one character.  [fuel] bounds
    the number of steps; the length of the text is enough. *)
Fixpoint replaceBold (dot : N -> bool) (fuel : nat) (s : jsstr) : jsstr :=
  match fuel, s with
  | _, [] => []
  | O, _ :: _ => s
  | S fuel', c :: s' =>
      match matchBold dot s with
      | Some (x, rest) =>
          lit "<strong>" ++ x ++ lit "</strong>" ++ replaceBold dot fuel' rest
      | None => c :: replaceBold dot fuel' s'
      end
  end.

(** In a regular expression without the [s] flag, [.] is any character but
    a line terminator. *)
Definition regexDot (c : N) : bool := negb (isLineTerminator c).

Definition replaceAll (dot : N -> bool) (text : jsstr) : jsstr :=
  replaceBold dot (List.length text) text.

Definition boldToStrong (text : jsstr) : jsstr := replaceAll regexDot text.

Definition newlineToBr (text : jsstr) : jsstr :=
  flat_map (fun c => if N.eqb c 10 then lit "<br/>" else [c]) text.

Definition renderMarkdown (text : jsstr) : jsstr :=
  newlineToBr (boldToStrong text).

(** *** One request *)

Record Request : Type := {
  authorization : jsstr;
  userContent : jsstr
}.

Inductive Effect : Type :=
| Fetch (retry : nat) (req : Request)
| SetTimeout (ms : N) (retry : nat)
| OnSummaryComplete.

(** [API_KEYS[retry % API_KEYS.length]] *)
Definition apiKey (retry : nat) : jsstr :=
  nth (retry mod List.length API_KEYS) API_KEYS (lit "undefined").

Definition request (p : Props) (retry : nat) : Request :=
  {| authorization := lit "Bearer " ++ apiKey retry;
     userContent :=
       lit "Interpret this search query: " ++ [34%N] ++ query p ++ [34%N] |}.

(** The message of [new Error(v)]. *)
Definition errorMessage (v : value) : jsstr :=
  match v with
  | Some j => toString j
  | None => []
  end.

(** [data.choices?.[0]?.message?.content]: only the first read can
    throw. *)
Definition contentOf (data : json) : completion value :=
  match getProp (Some data) (lit "choices") with
  | Throw m => Throw m
  | Return choices =>
      Return (optProp (optProp (optIndex0 choices) (lit "message"))
                      (lit "content"))
  end.

(** The body of the [try] block, given what the network answered: the
    message of the error thrown, or the text handed to [setSummary]. *)
Definition attempt (r : Fetched) : completion jsstr :=
  match r with
  | Rejected m => Throw m
  | Responded status (BodyInvalid m) => Throw m
  | Responded status (BodyJson data) =>
      if negb (ok status) then
        match getProp (Some data) (lit "error") with
        | Throw m => Throw m
        | Return e =>
            Throw (errorMessage
                     (vor (optProp e (lit "message"))
                          (Some (JStr (lit "AI summary generation failed")))))
        end
      else
        match contentOf data with
        | Throw m => Throw m
        | Return content =>
            if negb (truthy content) then Throw (lit "No summary returned")
            else
              match content with
              | Some (JStr s) => Return (renderMarkdown (trim s))
              | _ => Throw (lit "content.trim is not a function")
              end
        end
  end.

(** *** The catch block *)

Definition retryable (message : jsstr) : bool :=
  includes message (lit "rate limit") ||
  includes message (lit "authentication") ||
  includes message (lit "invalid").

Definition exhausted : jsstr :=
  lit "All API keys exhausted. Please try again later.".

Definition setError (e : option jsstr) (st : State) : State :=
  {| summary := summary st; loading := loading st; error := e;
     currentApiKeyIndex := currentApiKeyIndex st |}.

Definition setSummary (s : jsstr) (st : State) : State :=
  {| summary := s; loading := loading st; error := error st;
     currentApiKeyIndex := currentApiKeyIndex st |}.

Definition setLoading (b : bool) (st : State) : State :=
  {| summary := summary st; loading := b; error := error st;
     currentApiKeyIndex := currentApiKeyIndex st |}.

Definition setCurrentApiKeyIndex (i : nat) (st : State) : State :=
  {| summary := summary st; loading := loading st; error := error st;
     currentApiKeyIndex := i |}.

(** The catch block for an error with message [message] thrown by attempt
    [retry]: the state after it, and the retry it schedules, if any, as
    (delay in milliseconds, next index). *)
Definition onError (retry : nat) (message : jsstr) (st : State)
  : State * option (N * nat) :=
  if retryable message then
    if retry + 1 <? List.length API_KEYS then
      (setCurrentApiKeyIndex ((retry + 1) mod List.length API_KEYS) st,
       Some (800%N, retry + 1))
    else (setError (Some exhausted) st, None)
  else
    (setError (Some (orElse message (lit "Failed to generate AI summary"))) st,
     None).

(** The three [set] calls that open [fetchSummary]. *)
Definition awaiting (st : State) : State :=
  setError None (setSummary [] (setLoading true st)).

(** *** fetchSummary

    [net k] is what the network answers to the request of attempt [k].  The
    function returns the state once the chain of attempts has settled and
    the effects performed, in order.  [fuel] bounds the number of attempts
    followed; [None] means it ran out. *)
Fixpoint fetchSummary (fuel : nat) (net : nat -> Fetched) (p : Props)
  (retry : nat) (st : State) : option (State * list Effect) :=
  match fuel with
  | O => None
  | S fuel' =>
      let st1 := awaiting st in
      let sent := Fetch retry (request p retry) in
      match attempt (net retry) with
      | Return html =>
          Some (setLoading false (setSummary html st1),
                sent :: (if onSummaryComplete p then [OnSummaryComplete] else []))
      | Throw message =>
          match onError retry message st1 with
          | (st2, Some (ms, next)) =>
              match fetchSummary fuel' net p next (setLoading false st2) with
              | Some (st3, log) => Some (st3, sent :: SetTimeout ms next :: log)
              | None => None
              end
          | (st2, None) => Some (setLoading false st2, [sent])
          end
      end
  end.

(** The effect of the component: runs when [query] changes. *)
Definition effect (net : nat -> Fetched) (p : Props) (st : State)
  : option (State * list Effect) :=
  match query p with
  | [] => Some (st, [])
  | _ :: _ => fetchSummary (List.length API_KEYS) net p 0 st
  end.

(** What the component renders below its heading; [None] is the [null] it
    returns for an empty query. *)
Inductive View : Type :=
| Generating
| ErrorText (e : jsstr)
| SummaryHtml (html : jsstr).

Definition render (p : Props) (st : State) : option View :=
  match query p with
  | [] => None
  | _ :: _ =>
      Some (if loading st then Generating
            else match error st with
                 | Some (c :: e) => ErrorText (c :: e)
                 | _ => SummaryHtml (summary st)
                 end)
  end.

(** The requests among the effects. *)
Definition attempts (log : list Effect) : list (nat * Request) :=
  flat_map (fun e => match e with Fetch k r => [(k, r)] | _ => [] end) log.

Definition timers (log : list Effect) : list (N * nat) :=
  flat_map (fun e => match e with SetTimeout ms k => [(ms, k)] | _ => [] end) log.

End AiSummary.

(** ** The text results component (components/search/search-results.tsx,
       the version that queries the search backend) *)

Module SearchResults.

Import JS.

Inductive ViewMode : Type := text | images.

Definition ViewMode_eqb (a b : ViewMode) : bool :=
  match a, b with
  | text, text => true
  | images, images => true
  | _, _ => false
  end.

(** SearchResultsProps, with the defaults [google] and [10] filled in by the
    caller. *)
Record Props : Type := {
  query : jsstr;
  feature : jsstr;
  searchEngine : jsstr;
  numResults : N
}.

Record ContentView : Type := {
  url : jsstr;
  content : json
}.

(** The component's state cells.  [error] is [string | null]; [None] is
    [null]. *)
Record State : Type := {
  results : list json;
  loading : bool;
  error : value;
  executionTime : json;
  totalResults : json;
  selectedEngine : jsstr;
  contentView : option ContentView;
  loadingContent : bool;
  viewMode : ViewMode
}.

Definition initial (p : Props) : State :=
  {| results := []; loading := false; error := None;
     executionTime := JNum 0; totalResults := JNum 0;
     selectedEngine := searchEngine p; contentView := None;
     loadingContent := false; viewMode := text |}.

Definition setResults (x : list json) (st : State) : State :=
  {| results := x; loading := loading st; error := error st;
     executionTime := executionTime st; totalResults := totalResults st;
     selectedEngine := selectedEngine st; contentView := contentView st;
     loadingContent := loadingContent st; viewMode := viewMode st |}.

Definition setLoading (x : bool) (st : State) : State :=
  {| results := results st; loading := x; error := error st;
     executionTime := executionTime st; totalResults := totalResults st;
     selectedEngine := selectedEngine st; contentView := contentView st;
     loadingContent := loadingContent st; viewMode := viewMode st |}.

Definition setError (x : value) (st : State) : State :=
  {| results := results st; loading := loading st; error := x;
     executionTime := executionTime st; totalResults := totalResults st;
     selectedEngine := selectedEngine st; contentView := contentView st;
     loadingContent := loadingContent st; viewMode := viewMode st |}.

Definition setExecutionTime (x : json) (st : State) : State :=
  {| results := results st; loading := loading st; error := error st;
     executionTime := x; totalResults := totalResults st;
     selectedEngine := selectedEngine st; contentView := contentView st;
     loadingContent := loadingContent st; viewMode := viewMode st |}.

Definition setTotalResults (x : json) (st : State) : State :=
  {| results := results st; loading := loading st; error := error st;
     executionTime := executionTime st; totalResults := x;
     selectedEngine := selectedEngine st; contentView := contentView st;
     loadingContent := loadingContent st; viewMode := viewMode st |}.

Definition setSelectedEngine (x : jsstr) (st : State) : State :=
  {| results := results st; loading := loading st; error := error st;
     executionTime := executionTime st; totalResults := totalResults st;
     selectedEngine := x; contentView := contentView st;
     loadingContent := loadingContent st; viewMode := viewMode st |}.

Definition setContentView (x : option ContentView) (st : State) : State :=
  {| results := results st; loading := loading st; error := error st;
     executionTime := executionTime st; totalResults := totalResults st;
     selectedEngine := selectedEngine st; contentView := x;
     loadingContent := loadingContent st; viewMode := viewMode st |}.

Definition setLoadingContent (x : bool) (st : State) : State :=
  {| results := results st; loading := loading st; error := error st;
     executionTime := executionTime st; totalResults := totalResults st;
     selectedEngine := selectedEngine st; contentView := contentView st;
     loadingContent := x; viewMode := viewMode st |}.

Definition setViewMode (x : ViewMode) (st : State) : State :=
  {| results := results st; loading := loading st; error := error st;
     executionTime := executionTime st; totalResults := totalResults st;
     selectedEngine := selectedEngine st; contentView := contentView st;
     loadingContent := loadingContent st; viewMode := x |}.

Definition closeContentView : State -> State := setContentView None.
Definition changeSearchEngine : jsstr -> State -> State := setSelectedEngine.
Definition toggleViewMode : ViewMode -> State -> State := setViewMode.

(** *** fetchResults *)

(** The message of the URIError of [encodeURIComponent] (V8's wording). *)
Definition uriMalformed : jsstr := lit "URI malformed".

(** The address handed to [fetch]; [None] when [encodeURIComponent]
    throws. *)
Definition searchUrl (q engine : jsstr) (n : N) : option jsstr :=
  option_map
    (fun encoded =>
       lit "http://https://azizah.onrender.com/api/search/?query=" ++ encoded ++
       lit "&search_engine=" ++ engine ++
       lit "&num_results=" ++ decimalN n)
    (encodeURIComponent q).

(** [a || d] where [d] is a number or string literal. *)
Definition vorDefault (a : value) (d : json) : json :=
  match a with
  | Some j => if truthy a then j else d
  | None => d
  end.

(** What the success branch commits. *)
Record Payload : Type := {
  payloadResults : list json;
  payloadTotal : json;
  payloadTime : json;
  payloadError : value
}.

(** The body of the [try] block: [address] is the address built (or the
    URIError), [r] what the network answered.  Once [data.results] has been
    read, [data] is not [null], and the other reads of [data] cannot
    throw. *)
Definition attempt (address : option jsstr) (r : Fetched) : completion Payload :=
  match address with
  | None => Throw uriMalformed
  | Some _ =>
      match r with
      | Rejected m => Throw m
      | Responded status body =>
          if negb (ok status) then
            Throw (lit "HTTP error! status: " ++ decimalN status)
          else
            match body with
            | BodyInvalid m => Throw m
            | BodyJson data =>
                match getProp (Some data) (lit "results") with
                | Throw m => Throw m
                | Return (Some (JArr xs)) =>
                    Return
                      {| payloadResults := xs;
                         payloadTotal :=
                           vorDefault (optProp (Some data) (lit "total_results"))
                                      (JNum (Z.of_nat (List.length xs)));
                         payloadTime :=
                           vorDefault (optProp (Some data) (lit "execution_time"))
                                      (JNum 0);
                         payloadError := optProp (Some data) (lit "error") |}
                | Return _ => Throw (lit "Unexpected data format from API")
                end
            end
      end
  end.

(** The two [set] calls before the [try]. *)
Definition fetchResults_start (st : State) : State :=
  setError None (setLoading true st).

(** The rest of [fetchResults], run when the awaited calls have resolved:
    the success branch, or the catch block, then the [finally]. *)
Definition fetchResults_settle (c : completion Payload) (st : State) : State :=
  setLoading false
    match c with
    | Return p =>
        let st1 :=
          setExecutionTime (payloadTime p)
            (setTotalResults (payloadTotal p)
               (setResults (payloadResults p) st)) in
        if truthy (payloadError p) then setError (payloadError p) st1 else st1
    | Throw m =>
        setResults []
          (setError (Some (JStr (orElse m (lit "Something went wrong.")))) st)
    end.

(** One fetch from start to settlement with nothing in between. *)
Definition fetchResults (p : Props) (r : Fetched) (st : State) : State :=
  fetchResults_settle
    (attempt (searchUrl (query p) (selectedEngine st) (numResults p)) r)
    (fetchResults_start st).

(** The guards of the effect: a fetch is started for a non-empty query in
    text mode only. *)
Definition effectFetches (p : Props) (st : State) : bool :=
  match query p with
  | [] => false
  | _ :: _ => ViewMode_eqb (viewMode st) text
  end.

(** *** What is rendered

    In image mode the image component takes the place of the panels below.
    In text mode each panel is shown under its own condition. *)
Record Panels : Type := {
  loadingPanel : bool;
  errorPanel : option json;
  noResultsPanel : bool;
  resultCards : list json;
  overlay : option ContentView
}.

Definition render (st : State) : option Panels :=
  match viewMode st with
  | images => None
  | text =>
      Some {| loadingPanel := loading st;
              errorPanel := if truthy (error st) then error st else None;
              noResultsPanel :=
                negb (loading st) && negb (truthy (error st)) &&
                Nat.eqb (List.length (results st)) 0;
              resultCards := results st;
              overlay := contentView st |}
  end.

(** *** fetchPageContent *)

Inductive Effect : Type :=
| Alert (message : jsstr).

Definition contentUrl (u : jsstr) : option jsstr :=
  option_map
    (fun encoded =>
       lit "http://https://azizah.onrender.com/api/content/?url=" ++ encoded)
    (encodeURIComponent u).

(** The body of the [try] block: the content to show, if any, or the
    message of the error thrown. *)
Definition contentAttempt (address : option jsstr) (r : Fetched)
  : completion (option json) :=
  match address with
  | None => Throw uriMalformed
  | Some _ =>
      match r with
      | Rejected m => Throw m
      | Responded status body =>
          if negb (ok status) then
            Throw (lit "HTTP error! status: " ++ decimalN status)
          else
            match body with
            | BodyInvalid m => Throw m
            | BodyJson data =>
                match getProp (Some data) (lit "content") with
                | Throw m => Throw m
                | Return c =>
                    if truthy c then
                      Return (Some (vorDefault (optProp c (lit "content"))
                                      (JStr (lit "No content extracted"))))
                    else if truthy (optProp (Some data) (lit "error")) then
                      Throw (AiSummary.errorMessage
                               (optProp (Some data) (lit "error")))
                    else Return None
                end
            end
      end
  end.

Definition fetchPageContent_start (st : State) : State :=
  setLoadingContent true st.

(** The rest of [fetchPageContent] for the call made with [u]. *)
Definition fetchPageContent_settle (u : jsstr) (c : completion (option json))
  (st : State) : State * list Effect :=
  match c with
  | Return (Some shown) =>
      (setLoadingContent false
         (setContentView (Some {| url := u; content := shown |}) st), [])
  | Return None => (setLoadingContent false st, [])
  | Throw m =>
      (setLoadingContent false st,
       [Alert (lit "Failed to fetch page content: " ++ m)])
  end.

Definition fetchPageContent (u : jsstr) (r : Fetched) (st : State)
  : State * list Effect :=
  fetchPageContent_settle u (contentAttempt (contentUrl u) r)
    (fetchPageContent_start st).

(** *** Fetches in flight

    The component with the calls that have not resolved yet.  A call keeps
    what its closure captured: the address for [fetchPageContent], the
    (query, engine, count) it was started for in the case of
    [fetchResults]. *)
Record Session : Type := {
  props : Props;
  view : State;
  pendingResults : list (jsstr * jsstr * N);
  pendingContent : list jsstr;
  alerts : list jsstr
}.

Inductive Event : Type :=
| NewQuery (q : jsstr)
| ChangeEngine (engine : jsstr)
| ToggleMode (mode : ViewMode)
| ResultsResolve (k : nat) (r : Fetched)
| ContentClick (u : jsstr)
| ContentResolve (k : nat) (r : Fetched).

(** The dependency list of the effect. *)
Definition deps (s : Session) : jsstr * jsstr * N * ViewMode :=
  (query (props s), selectedEngine (view s), numResults (props s),
   viewMode (view s)).

Definition deps_eqb (a b : jsstr * jsstr * N * ViewMode) : bool :=
  match a, b with
  | (q, e, n, m), (q', e', n', m') =>
      eqb q q' && eqb e e' && N.eqb n n' && ViewMode_eqb m m'
  end.

(** The effect as run after an update: nothing when the dependencies are
    unchanged or a guard returns; otherwise [fetchResults] starts, and either
    fails at once (the address cannot be built) or stays in flight. *)
Definition runEffect (before : jsstr * jsstr * N * ViewMode) (s : Session)
  : Session :=
  if deps_eqb before (deps s) || negb (effectFetches (props s) (view s)) then s
  else
    let q := query (props s) in
    let e := selectedEngine (view s) in
    let n := numResults (props s) in
    let st := fetchResults_start (view s) in
    match searchUrl q e n with
    | None =>
        {| props := props s;
           view := fetchResults_settle (Throw uriMalformed) st;
           pendingResults := pendingResults s;
           pendingContent := pendingContent s; alerts := alerts s |}
    | Some _ =>
        {| props := props s; view := st;
           pendingResults := pendingResults s ++ [(q, e, n)];
           pendingContent := pendingContent s; alerts := alerts s |}
    end.

Definition withView (st : State) (s : Session) : Session :=
  {| props := props s; view := st; pendingResults := pendingResults s;
     pendingContent := pendingContent s; alerts := alerts s |}.

Definition withQuery (q : jsstr) (s : Session) : Session :=
  {| props := {| query := q; feature := feature (props s);
                 searchEngine := searchEngine (props s);
                 numResults := numResults (props s) |};
     view := view s; pendingResults := pendingResults s;
     pendingContent := pendingContent s; alerts := alerts s |}.

(** The list without its [k]-th element. *)
Definition without {A : Type} (k : nat) (l : list A) : list A :=
  firstn k l ++ skipn (S k) l.

Definition step (s : Session) (ev : Event) : Session :=
  match ev with
  | NewQuery q => runEffect (deps s) (withQuery q s)
  | ChangeEngine e => runEffect (deps s) (withView (changeSearchEngine e (view s)) s)
  | ToggleMode m => runEffect (deps s) (withView (toggleViewMode m (view s)) s)
  | ResultsResolve k r =>
      match nth_error (pendingResults s) k with
      | None => s
      | Some (q, e, n) =>
          {| props := props s;
             view := fetchResults_settle (attempt (searchUrl q e n) r) (view s);
             pendingResults := without k (pendingResults s);
             pendingContent := pendingContent s; alerts := alerts s |}
      end
  | ContentClick u =>
      let st := fetchPageContent_start (view s) in
      match contentUrl u with
      | None =>
          let '(st', fx) := fetchPageContent_settle u (Throw uriMalformed) st in
          {| props := props s; view := st';
             pendingResults := pendingResults s;
             pendingContent := pendingContent s;
             alerts := alerts s ++ map (fun '(Alert m) => m) fx |}
      | Some _ =>
          {| props := props s; view := st;
             pendingResults := pendingResults s;
             pendingContent := pendingContent s ++ [u]; alerts := alerts s |}
      end
  | ContentResolve k r =>
      match nth_error (pendingContent s) k with
      | None => s
      | Some u =>
          let '(st', fx) :=
            fetchPageContent_settle u (contentAttempt (contentUrl u) r) (view s) in
          {| props := props s; view := st';
             pendingResults := pendingResults s;
             pendingContent := without k (pendingContent s);
             alerts := alerts s ++ map (fun '(Alert m) => m) fx |}
      end
  end.

Definition run (s : Session) (evs : list Event) : Session :=
  fold_left step evs s.

(** The component once mounted: the effect has run for the first time. *)
Definition mounted (p : Props) : Session :=
  let s := {| props := p; view := initial p; pendingResults := [];
              pendingContent := []; alerts := [] |} in
  if effectFetches p (initial p) then
    match searchUrl (query p) (searchEngine p) (numResults p) with
    | None =>
        withView (fetchResults_settle (Throw uriMalformed)
                    (fetchResults_start (initial p))) s
    | Some _ =>
        {| props := p; view := fetchResults_start (initial p);
           pendingResults := [(query p, searchEngine p, numResults p)];
           pendingContent := []; alerts := [] |}
    end
  else s.

End SearchResults.

(** ** The image results component (components/search/image-search.tsx) *)

Module ImageSearch.

Import JS.

Record State : Type := {
  results : list json;
  loading : bool;
  error : value;
  executionTime : json;
  totalResults : json;
  selectedEngine : jsstr;
  enlargedImage : option json
}.

Definition imageSearchUrl (q engine : jsstr) (n : N) : option jsstr :=
  option_map
    (fun encoded =>
       lit "http://localhost:10000/api/image-search/?query=" ++ encoded ++
       lit "&search_engine=" ++ engine ++
       lit "&num_results=" ++ decimalN n)
    (encodeURIComponent q).

Definition fetchResults_start (st : State) : State :=
  {| results := results st; loading := true; error := None;
     executionTime := executionTime st; totalResults := totalResults st;
     selectedEngine := selectedEngine st; enlargedImage := enlargedImage st |}.

(** The [try] block of this component has the text of the one of the text
    results component, so [SearchResults.attempt] stands for it as well. *)
Definition fetchResults_settle (c : completion SearchResults.Payload)
  (st : State) : State :=
  match c with
  | Return p =>
      {| results := SearchResults.payloadResults p; loading := false;
         error := if truthy (SearchResults.payloadError p)
                  then SearchResults.payloadError p else error st;
         executionTime := SearchResults.payloadTime p;
         totalResults := SearchResults.payloadTotal p;
         selectedEngine := selectedEngine st;
         enlargedImage := enlargedImage st |}
  | Throw m =>
      {| results := []; loading := false;
         error := Some (JStr (orElse m (lit "Something went wrong.")));
         executionTime := executionTime st; totalResults := totalResults st;
         selectedEngine := selectedEngine st;
         enlargedImage := enlargedImage st |}
  end.

Definition fetchResults (q : jsstr) (n : N) (r : Fetched) (st : State) : State :=
  fetchResults_settle
    (SearchResults.attempt (imageSearchUrl q (selectedEngine st) n) r)
    (fetchResults_start st).

End ImageSearch.

(** ** The search form (the search-interface component that keeps the
       submitted query apart from the draft) *)

Module SearchInterface.

Import JS.

Record State : Type := {
  searchQuery : jsstr;
  activeFeature : jsstr;
  showResults : bool;
  submittedQuery : jsstr
}.

Definition initial : State :=
  {| searchQuery := []; activeFeature := lit "search"; showResults := false;
     submittedQuery := [] |}.

Definition setSearchQuery (q : jsstr) (st : State) : State :=
  {| searchQuery := q; activeFeature := activeFeature st;
     showResults := showResults st; submittedQuery := submittedQuery st |}.

(** [handleSearch], after [e.preventDefault()]. *)
Definition handleSearch (st : State) : State :=
  match trim (searchQuery st) with
  | [] => st
  | c :: q =>
      {| searchQuery := searchQuery st; activeFeature := activeFeature st;
         showResults := true; submittedQuery := c :: q |}
  end.

(** The props of the results component, which is rendered when
    [showResults] holds. *)
Definition resultsProps (st : State) : option SearchResults.Props :=
  if showResults st then
    Some {| SearchResults.query := submittedQuery st;
            SearchResults.feature := activeFeature st;
            SearchResults.searchEngine := lit "google";
            SearchResults.numResults := 10 |}
  else None.

(** The form together with the results component below it. *)
Record Page : Type := {
  form : State;
  child : option SearchResults.Session
}.

(** The child shows what the form passes down. *)
Definition consistent (pg : Page) : Prop :=
  match resultsProps (form pg), child pg with
  | None, None => True
  | Some p, Some s => SearchResults.props s = p
  | _, _ => False
  end.

(** A submit of the form: [handleSearch], then the update of the child, which 
    is mounted when first shown and otherwise receives the query. *)
Definition submit (pg : Page) : Page :=
  let form' := handleSearch (form pg) in
  {| form := form';
     child :=
       match resultsProps form' with
       | None => None
       | Some p =>
           Some match child pg with
                | None => SearchResults.mounted p
                | Some s =>
                    SearchResults.step s
                      (SearchResults.NewQuery (SearchResults.query p))
                end
       end |}.

(** A query made of nothing but characters that [trim] strips. *)
Definition blank (q : jsstr) : bool := forallb isTrimmed q.

End SearchInterface.

(** ** The search form without a submitted query
       (components/search-interface.tsx) *)

Module SearchInterfaceDraft.

Import JS.

Record State : Type := {
  searchQuery : jsstr;
  activeFeature : jsstr;
  showResults : bool
}.

Definition handleSearch (st : State) : State :=
  match trim (searchQuery st) with
  | [] => st
  | _ :: _ =>
      {| searchQuery := searchQuery st; activeFeature := activeFeature st;
         showResults := true |}
  end.

End SearchInterfaceDraft.

(** ** Reading an address

    The part of an address between [//] and the next [/], [?] or [#], and the
    host in it (up to the port's colon), as the URL standard splits a special
    address. *)

Module Url.

Import JS.

Fixpoint upTo (stop : N -> bool) (s : jsstr) : jsstr :=
  match s with
  | [] => []
  | c :: s' => if stop c then [] else c :: upTo stop s'
  end.

Fixpoint afterSlashes (s : jsstr) : option jsstr :=
  match s with
  | 47%N :: 47%N :: rest => Some rest
  | [] => None
  | _ :: s' => afterSlashes s'
  end.

Definition authority (address : jsstr) : option jsstr :=
  option_map (upTo (fun c => N.eqb c 47 || N.eqb c 63 || N.eqb c 35))
             (afterSlashes address).

Definition host (address : jsstr) : option jsstr :=
  option_map (upTo (N.eqb 58)) (authority address).

Definition scheme (address : jsstr) : jsstr := upTo (N.eqb 58) address.

End Url.

(** ** The words of the specification *)

Section SpecificationWords.

Import JS AiSummary.

(** [p] occurs in [s]: code unit for code unit, so case matters. *)
Definition Occurs (p s : jsstr) : Prop :=
  exists before after, s = before ++ p ++ after.



End SpecificationWords.

(** ** Scenarios

    Networks, states and pages the examples below run on. *)

Section SummaryScenarios.

Import JS AiSummary.

(** A network on which every key is rate limited. *)
Definition rateLimited (k : nat) : Fetched :=
  Responded 429
    (BodyJson (JObj [(lit "error",
                      JObj [(lit "message", JStr (lit "rate limit reached"))])])).

(** A network that is down. *)
Definition offline (k : nat) : Fetched := Rejected (lit "Failed to fetch").

Definition someProps : Props :=
  {| query := lit "rust ownership"; onSummaryComplete := true; apiKeyIndex := 0 |}.



(** A completion of two lines, the first one bold. *)
Definition twoLines : jsstr := lit " **Rust** is a language." ++ [10%N] ++ lit "It is fast. ".

Definition completes (k : nat) : Fetched :=
  Responded 200
    (BodyJson
       (JObj [(lit "choices",
               JArr [JObj [(lit "message",
                            JObj [(lit "content", JStr twoLines)])]])])).

End SummaryScenarios.

Section ResultsScenarios.

Import JS SearchResults.

Definition somewhere : Props :=
  {| query := lit "rust ownership"; feature := lit "search";
     searchEngine := lit "google"; numResults := 5 |}.

(** A state left by an earlier successful fetch of two results. *)
Definition showingTwo : State :=
  setTotalResults (JNum 2)
    (setResults [JObj [(lit "id", JStr (lit "1"))]; JObj [(lit "id", JStr (lit "2"))]]
       (initial somewhere)).

(** The backend found nothing: [{"query": ..., "results": [], "error": null}]. *)
Definition nothingFound : json :=
  JObj [(lit "query", JStr (lit "rust ownership")); (lit "results", JArr []);
        (lit "total_results", JNum 0); (lit "execution_time", JNum 0);
        (lit "error", JNull)].

Definition pageA : jsstr := lit "https://x.test/a".


(** The component showing results, nothing in flight. *)
Definition idle : Session :=
  {| props := somewhere; view := showingTwo; pendingResults := [];
     pendingContent := []; alerts := [] |}.

End ResultsScenarios.

Section PageScenarios.

Import JS SearchInterface.

(** The page showing results, the user having replaced the query by
    blanks. *)
Definition blankDraft : Page :=
  {| form := {| searchQuery := lit "   "; activeFeature := lit "search";
                showResults := true; submittedQuery := lit "rust ownership" |};
     child :=
       Some {| SearchResults.props :=
                 {| SearchResults.query := lit "rust ownership";
                    SearchResults.feature := lit "search";
                    SearchResults.searchEngine := lit "google";
                    SearchResults.numResults := 10 |};
               SearchResults.view := showingTwo;
               SearchResults.pendingResults := [];
               SearchResults.pendingContent := [];
               SearchResults.alerts := [] |} |}.

End PageScenarios.

(** ** More of the text results component: what the cards and the header
       show, and the summary panel it hosts *)

Module ResultsView.

Import JS SearchResults.

(** [s.replace(pattern, replacement)] for a string pattern and a
    replacement without [$]: the first occurrence only. *)
Fixpoint replaceFirst (s pattern replacement : jsstr) : jsstr :=
  if startsWith s pattern then replacement ++ skipn (List.length pattern) s
  else
    match s with
    | [] => []
    | c :: s' => c :: replaceFirst s' pattern replacement
    end.

(** [formatDomain]: [domain.replace('www.', '')]. *)
Definition formatDomain (domain : jsstr) : jsstr :=
  replaceFirst domain (lit "www.") [].

(** The heading above the results. *)
Definition heading (p : Props) (st : State) : jsstr :=
  (if loading st then lit "SEARCHING " else lit "RESULTS FOR ") ++
  [34%N] ++ query p ++ [34%N].

(** The badge next to the heading: [loading ? '...' :
    `${totalResults} results`]. *)
Definition countBadge (st : State) : jsstr :=
  if loading st then lit "..." else toString (totalResults st) ++ lit " results".

(** The props the component gives the summary panel it renders:
    [<AiSummary query={query} onSummaryComplete={() => setContentView(null)} />]. *)
Definition summaryProps (p : Props) : AiSummary.Props :=
  {| AiSummary.query := query p; AiSummary.onSummaryComplete := true;
     AiSummary.apiKeyIndex := 0 |}.

(** What an effect of the summary panel does to this component: the
    callback closes the content view. *)
Definition onSummaryEffect (st : State) (e : AiSummary.Effect) : State :=
  match e with
  | AiSummary.OnSummaryComplete => closeContentView st
  | _ => st
  end.

Definition afterSummary (log : list AiSummary.Effect) (st : State) : State :=
  fold_left onSummaryEffect log st.

(** Whether the callback ran. *)
Definition completed (log : list AiSummary.Effect) : bool :=
  existsb (fun e => match e with AiSummary.OnSummaryComplete => true | _ => false end)
          log.

End ResultsView.

(** ** The search form over time *)

Module FormEvents.

Import JS SearchInterface.

(** What the user does to the form: type in the box ([onChange] calls
    [setSearchQuery]) or submit. *)
Inductive Event : Type :=
| Type_ (q : jsstr)
| Submit.

Definition step (st : State) (ev : Event) : State :=
  match ev with
  | Type_ q => setSearchQuery q st
  | Submit => handleSearch st
  end.

Definition run (st : State) (evs : list Event) : State := fold_left step evs st.

End FormEvents.

(** ** The placeholder results (components/search-results.tsx) *)

Module MockResults.

Import JS.

Record Result : Type := {
  id : jsstr;
  title : jsstr;
  snippet : jsstr;
  url : jsstr
}.

(** The list the effect puts in [results], for the props [query] and
    [feature]. *)
Definition mockResults (query feature : jsstr) : list Result :=
  [ {| id := lit "1";
       title := query ++ lit " - Official Documentation";
       snippet := lit "Comprehensive guide about " ++ query ++
                  lit " and its applications in modern technology. Includes code examples and best practices.";
       url := lit "https://example.com/docs" |};
    {| id := lit "2";
       title := lit "Understanding " ++ query ++ lit " - A Deep Dive";
       snippet := lit "An in-depth analysis of " ++ query ++ lit " and how it relates to " ++
                  feature ++ lit ". Explores advanced concepts and theoretical frameworks.";
       url := lit "https://example.com/analysis" |};
    {| id := lit "3";
       title := query ++ lit " Implementation Strategies";
       snippet := lit "Learn how to implement " ++ query ++
                  lit " in your projects. Step-by-step tutorials with practical examples and case studies.";
       url := lit "https://example.com/implementation" |};
    {| id := lit "4";
       title := lit "The Future of " ++ query ++ lit " Technology";
       snippet := lit "Exploring upcoming trends and innovations in " ++ query ++
                  lit ". Predictions from industry experts and research findings.";
       url := lit "https://example.com/future" |};
    {| id := lit "5";
       title := query ++ lit " vs. Alternative Approaches";
       snippet := lit "Comparative analysis of " ++ query ++
                  lit " against other methodologies. Pros, cons, and performance benchmarks.";
       url := lit "https://example.com/comparison" |} ].

(** The badge: [{results.length} results]. *)
Definition countBadge (results : list Result) : jsstr :=
  decimalN (N.of_nat (List.length results)) ++ lit " results".

End MockResults.

(** ** More scenarios *)

Section MoreScenarios.

Import JS.






(** The backend extracted nothing from the page. *)
Definition emptyPage : Fetched :=
  Responded 200
    (BodyJson (JObj [(lit "content", JObj [(lit "content", JStr [])])])).

(** The results with the content of a page open on top. *)
Definition readingPage : SearchResults.State :=
  SearchResults.setContentView
    (Some {| SearchResults.url := pageA;
             SearchResults.content := JStr (lit "text of a") |}) showingTwo.

End MoreScenarios.

(** ** Predicates of the statements below *)

Section Predicates.

Import JS.

(** How a settled chain of summary attempts ended: with an error, or with
    the summary of the attempt numbered [last]. *)
Definition Outcome (net : nat -> Fetched) (p : AiSummary.Props) (last : nat)
  (st' : AiSummary.State) (log : list AiSummary.Effect) : Prop :=
  (exists e, AiSummary.error st' = Some e /\ e <> [] /\
             AiSummary.summary st' = [] /\
             ResultsView.completed log = false) \/
  (AiSummary.error st' = None /\
   AiSummary.attempt (net last) = Return (AiSummary.summary st') /\
   ResultsView.completed log = AiSummary.onSummaryComplete p).

(** What holds of the form at any time. *)
Definition FormInvariant (st : SearchInterface.State) : Prop :=
  (SearchInterface.showResults st = true ->
   SearchInterface.submittedQuery st <> [] /\
   trim (SearchInterface.submittedQuery st) = SearchInterface.submittedQuery st) /\
  (SearchInterface.showResults st = false -> SearchInterface.submittedQuery st = []).

(** What an encoded component is made of. *)
Definition isSafe (c : N) : bool := isUnreserved c || N.eqb c 37.

Definition isSurrogate (c : N) : bool := isHighSurrogate c || isLowSurrogate c.

End Predicates.

(* ===================================================================== *)
(** * Part II.  Theorems                                                  *)
(* ===================================================================== *)

(** ** Strings *)

Section StringFacts.

Import JS.

Lemma startsWith_prefix (s p : jsstr) :
  startsWith s p = true <-> exists rest, s = p ++ rest.
Proof.
  revert s. induction p as [|a p IH]; intros s; simpl.
  - split; [intros _; now exists s | reflexivity].
  - destruct s as [|b s]; simpl.
    + split; [discriminate | intros [rest H]; discriminate].
    + rewrite andb_true_iff, N.eqb_eq, IH. split.
      * intros [-> [rest ->]]. now exists rest.
      * intros [rest H]. injection H as -> ->. split; [reflexivity | now exists rest].
Qed.

Lemma includes_occurs (s p : jsstr) :
  includes s p = true <-> Occurs p s.
Proof.
  unfold Occurs. induction s as [|c s IH].
  - simpl. rewrite orb_false_r, startsWith_prefix. split.
    + intros [rest H]. exists [], rest. exact H.
    + intros [before [rest H]]. destruct before; simpl in H.
      * now exists rest.
      * discriminate.
  - cbn [includes]. rewrite orb_true_iff, startsWith_prefix, IH. split.
    + intros [[rest H] | [before [rest H]]].
      * exists [], rest. exact H.
      * exists (c :: before), rest. simpl. now rewrite H.
    + intros [before [rest H]]. destruct before as [|b before]; simpl in H.
      * left. now exists rest.
      * right. injection H as _ H. now exists before, rest.
Qed.

Lemma trimStart_blank (q : jsstr) :
  forallb isTrimmed q = true -> trimStart q = [].
Proof.
  induction q as [|c q IH]; simpl; [reflexivity|].
  intros H. apply andb_true_iff in H as [Hc Hq]. rewrite Hc. now apply IH.
Qed.

Lemma trimStart_nil_blank (q : jsstr) :
  trimStart q = [] -> forallb isTrimmed q = true.
Proof.
  induction q as [|c q IH]; simpl; [reflexivity|].
  destruct (isTrimmed c); [intros H; now apply IH | discriminate].
Qed.

Lemma trim_blank (q : jsstr) :
  forallb isTrimmed q = true <-> trim q = [].
Proof.
  unfold trim, trimEnd. split.
  - intros H. now rewrite (trimStart_blank _ H).
  - intros H. apply trimStart_nil_blank.
    destruct (trimStart q) as [|c t] eqn:E; [reflexivity | exfalso].
    assert (Hr : trimStart (rev (c :: t)) = []).
    { apply (f_equal (@rev N)) in H. rewrite rev_involutive in H. exact H. }
    apply trimStart_nil_blank in Hr. rewrite forallb_forall in Hr.
    assert (Hc : isTrimmed c = true) by (apply Hr, in_rev; rewrite rev_involutive; now left).
    simpl in E. destruct q as [|d q]; [discriminate|].
    revert E. clear -Hc. revert d. induction q as [|e q IH]; intros d; simpl.
    + destruct (isTrimmed d) eqn:Hd; [discriminate|]. intros E. injection E as <- _. congruence.
    + destruct (isTrimmed d) eqn:Hd.
      * apply IH.
      * intros E. injection E as <- _. congruence.
Qed.

End StringFacts.

(** ** The summary fetcher *)

Section SummaryFetcher.

Import JS AiSummary.

Lemma retryable_occurs (m : jsstr) :
  retryable m = true <->
  Occurs (lit "rate limit") m \/ Occurs (lit "authentication") m \/
  Occurs (lit "invalid") m.
Proof.
  unfold retryable. rewrite !orb_true_iff, !includes_occurs. tauto.
Qed.

Lemma fetchSummary_throw (fuel : nat) (net : nat -> Fetched) (p : Props)
  (retry : nat) (st : State) (m : jsstr) :
  attempt (net retry) = Throw m ->
  fetchSummary (S fuel) net p retry st =
  match onError retry m (awaiting st) with
  | (st2, Some (ms, next)) =>
      match fetchSummary fuel net p next (setLoading false st2) with
      | Some (st3, log) =>
          Some (st3, Fetch retry (request p retry) :: SetTimeout ms next :: log)
      | None => None
      end
  | (st2, None) => Some (setLoading false st2, [Fetch retry (request p retry)])
  end.
Proof.
  intros H. cbn [fetchSummary]. rewrite H. reflexivity.
Qed.

Lemma orElse_nonempty (m d : jsstr) : d <> [] -> orElse m d <> [].
Proof. destruct m; simpl; [trivial | discriminate]. Qed.

(** The chain of attempts always settles: started at index [retry], it
    needs no more fuel than there are keys left. *)
Lemma fetchSummary_settles (net : nat -> Fetched) (p : Props) :
  forall fuel retry st,
    List.length API_KEYS <= retry + fuel -> 0 < fuel ->
    exists st' log, fetchSummary fuel net p retry st = Some (st', log).
Proof.
  induction fuel as [|fuel IH]; intros retry st Hsum Hpos; [lia|].
  cbn [fetchSummary]. destruct (attempt (net retry)) as [m|html].
  - unfold onError. destruct (retryable m).
    + destruct (retry + 1 <? List.length API_KEYS) eqn:Hlt.
      * apply Nat.ltb_lt in Hlt.
        destruct (IH (retry + 1)
                    (setLoading false
                       (setCurrentApiKeyIndex
                          ((retry + 1) mod List.length API_KEYS) (awaiting st))))
          as [st' [log E]]; [lia | lia |].
        rewrite E. eexists _, _. reflexivity.
      * eexists _, _. reflexivity.
    + eexists _, _. reflexivity.
  - eexists _, _. reflexivity.
Qed.

(** Whatever happens next, an attempt starts with its own request. *)
Lemma fetchSummary_first_request (fuel : nat) (net : nat -> Fetched) (p : Props)
  (retry : nat) (st st' : State) (log : list Effect) :
  fetchSummary fuel net p retry st = Some (st', log) ->
  exists rest, log = Fetch retry (request p retry) :: rest.
Proof.
  destruct fuel as [|fuel]; [discriminate|]. cbn [fetchSummary].
  destruct (attempt (net retry)) as [m|html].
  - destruct (onError retry m (awaiting st)) as [st2 [[ms next]|]].
    + destruct (fetchSummary fuel net p next (setLoading false st2)) as [[st3 l]|];
        [|discriminate].
      intros [= _ <-]. eexists. reflexivity.
    + intros [= _ <-]. eexists. reflexivity.
  - intros [= _ <-]. eexists. reflexivity.
Qed.

(** C2.  A failed attempt is retried exactly when its message contains
    "rate limit", "authentication" or "invalid" and another key is left:
    then a timer of 800 ms is set and [fetchSummary] runs again with the next
    index, hence with the next key of the pool; otherwise the chain ends
    there, with an error message reported and no timer. *)
Theorem retry_policy (fuel : nat) (net : nat -> Fetched) (p : Props)
  (retry : nat) (st : State) (m : jsstr) :
  attempt (net retry) = Throw m ->
  let matched :=
    Occurs (lit "rate limit") m \/ Occurs (lit "authentication") m \/
    Occurs (lit "invalid") m in
  (matched /\ retry + 1 < List.length API_KEYS ->
   exists st1,
     error st1 = None /\ currentApiKeyIndex st1 = retry + 1 /\
     fetchSummary (S fuel) net p retry st =
     option_map
       (fun '(st', log) =>
          (st', Fetch retry (request p retry) :: SetTimeout 800 (retry + 1) :: log))
       (fetchSummary fuel net p (retry + 1) st1) /\
     (forall st' log,
        fetchSummary fuel net p (retry + 1) st1 = Some (st', log) ->
        exists rest, log = Fetch (retry + 1) (request p (retry + 1)) :: rest) /\
     authorization (request p (retry + 1)) =
       lit "Bearer " ++ nth (retry + 1) API_KEYS (lit "undefined")) /\
  (~ (matched /\ retry + 1 < List.length API_KEYS) ->
   exists st' e,
     fetchSummary (S fuel) net p retry st =
       Some (st', [Fetch retry (request p retry)]) /\
     error st' = Some e /\ e <> [] /\ loading st' = false).
Proof.
  intros H matched. rewrite (fetchSummary_throw fuel net p retry st m H).
  unfold onError. split.
  - intros [Hm Hlt]. apply retryable_occurs in Hm. rewrite Hm.
    pose proof Hlt as Hltb. apply Nat.ltb_lt in Hltb. rewrite Hltb.
    exists (setLoading false
              (setCurrentApiKeyIndex ((retry + 1) mod List.length API_KEYS)
                 (awaiting st))).
    split; [reflexivity|].
    split; [cbn [currentApiKeyIndex setLoading setCurrentApiKeyIndex];
            now apply Nat.mod_small|].
    split; [destruct (fetchSummary fuel net p (retry + 1) _) as [[? ?]|]; reflexivity|].
    split; [intros st' log E; exact (fetchSummary_first_request _ _ _ _ _ _ _ E)|].
    unfold request, apiKey. cbn [authorization].
    now rewrite (Nat.mod_small _ _ Hlt).
  - intros Hn. destruct (retryable m) eqn:Hr.
    + destruct (retry + 1 <? List.length API_KEYS) eqn:Hlt.
      * exfalso. apply Hn. split; [now apply retryable_occurs | now apply Nat.ltb_lt].
      * eexists _, _. split; [reflexivity|]. split; [reflexivity|].
        split; [discriminate | reflexivity].
    + eexists _, _. split; [reflexivity|]. split; [reflexivity|].
      split; [apply orElse_nonempty; discriminate | reflexivity].
Qed.

(** The pool is exhausted by seven retryable failures in a row. *)
Lemma fetchSummary_exhausts (net : nat -> Fetched) (p : Props) :
  (forall k, k < List.length API_KEYS ->
     exists m, attempt (net k) = Throw m /\ retryable m = true) ->
  forall fuel retry st,
    retry + S fuel = List.length API_KEYS ->
    exists st' log,
      fetchSummary (S fuel) net p retry st = Some (st', log) /\
      attempts log = map (fun k => (k, request p k)) (seq retry (S fuel)) /\
      timers log = map (fun k => (800%N, k)) (seq (S retry) fuel) /\
      error st' = Some exhausted /\ loading st' = false.
Proof.
  intros Hall. induction fuel as [|fuel IH]; intros retry st Hsum.
  - destruct (Hall retry) as [m [Hm Hr]]; [lia|].
    rewrite (fetchSummary_throw 0 net p retry st m Hm). unfold onError. rewrite Hr.
    replace (retry + 1 <? List.length API_KEYS) with false
      by (symmetry; apply Nat.ltb_ge; lia).
    eexists _, _. split; [reflexivity|]. repeat split.
  - destruct (Hall retry) as [m [Hm Hr]]; [lia|].
    rewrite (fetchSummary_throw (S fuel) net p retry st m Hm). unfold onError. rewrite Hr.
    replace (retry + 1 <? List.length API_KEYS) with true
      by (symmetry; apply Nat.ltb_lt; lia).
    destruct (IH (retry + 1)
                (setLoading false
                   (setCurrentApiKeyIndex ((retry + 1) mod List.length API_KEYS)
                      (awaiting st)))) as [st' [log [E [Ha [Ht [He Hl]]]]]]; [lia|].
    rewrite E. eexists _, _. split; [reflexivity|].
    replace (retry + 1) with (S retry) in * by lia.
    cbn [attempts timers flat_map app] in *. fold (attempts log). fold (timers log).
    rewrite Ha, Ht. repeat split; assumption.
Qed.

(** C1.  When every attempt fails with a retryable error, the seven keys are
    tried once each, in the order of the pool, with a timer of 800 ms
    between two attempts, and the outcome is the exhausted-pool message.
    When the first attempt fails with an error that is not retryable, it is
    the only attempt and its message is reported (the fixed fallback text
    standing in for an empty message). *)
Theorem fetchSummary_attempts (net : nat -> Fetched) (p : Props) (st : State) :
  List.length API_KEYS = 7 /\
  ((forall k, k < List.length API_KEYS ->
      exists m, attempt (net k) = Throw m /\ retryable m = true) ->
   exists st' log,
     fetchSummary (List.length API_KEYS) net p 0 st = Some (st', log) /\
     attempts log = map (fun k => (k, request p k)) (seq 0 (List.length API_KEYS)) /\
     map (fun a => authorization (snd a)) (attempts log) =
       map (fun key => lit "Bearer " ++ key) API_KEYS /\
     List.length (attempts log) = List.length API_KEYS /\
     timers log = map (fun k => (800%N, k)) (seq 1 6) /\
     error st' = Some exhausted /\ loading st' = false) /\
  (forall m, attempt (net 0) = Throw m -> retryable m = false ->
   exists st',
     fetchSummary (List.length API_KEYS) net p 0 st =
       Some (st', [Fetch 0 (request p 0)]) /\
     error st' = Some (orElse m (lit "Failed to generate AI summary")) /\
     (m <> [] -> error st' = Some m) /\ loading st' = false).
Proof.
  split; [reflexivity|]. split.
  - intros Hall.
    destruct (fetchSummary_exhausts net p Hall 6 0 st eq_refl)
      as [st' [log [E [Ha [Ht [He Hl]]]]]].
    exists st', log. split; [exact E|]. split; [exact Ha|].
    split; [rewrite Ha; reflexivity|]. split; [rewrite Ha; reflexivity|].
    repeat split; assumption.
  - intros m Hm Hr.
    change (List.length API_KEYS) with 7.
    rewrite (fetchSummary_throw 6 net p 0 st m Hm). unfold onError. rewrite Hr.
    eexists. split; [reflexivity|]. split; [reflexivity|].
    split; [|reflexivity]. intros Hne. destruct m; [congruence | reflexivity].
Qed.

Lemma retry_policy_witness :
  exists st1,
    fetchSummary 7 rateLimited someProps 0 (initial someProps) =
    option_map
      (fun '(st', log) =>
         (st', Fetch 0 (request someProps 0) :: SetTimeout 800 1 :: log))
      (fetchSummary 6 rateLimited someProps 1 st1).
Proof.
  destruct (proj1 (retry_policy 6 rateLimited someProps 0 (initial someProps)
                     (lit "rate limit reached") eq_refl))
    as [st1 [_ [_ [E _]]]].
  - split.
    + left. exists [], (lit " reached"). reflexivity.
    + simpl. lia.
  - exists st1. exact E.
Defined.

Lemma fetchSummary_attempts_witness :
  (exists st' log,
     fetchSummary 7 rateLimited someProps 0 (initial someProps) = Some (st', log) /\
     map (fun a => authorization (snd a)) (attempts log) =
       map (fun key => lit "Bearer " ++ key) API_KEYS /\
     error st' = Some exhausted) /\
  (exists st',
     fetchSummary 7 offline someProps 0 (initial someProps) =
       Some (st', [Fetch 0 (request someProps 0)]) /\
     error st' = Some (lit "Failed to fetch")).
Proof.
  split.
  - destruct (proj1 (proj2 (fetchSummary_attempts rateLimited someProps (initial someProps))))
      as [st' [log [E [_ [Ha [_ [_ [He _]]]]]]]].
    + intros k _. exists (lit "rate limit reached"). split; reflexivity.
    + exists st', log. repeat split; assumption.
  - destruct (proj2 (proj2 (fetchSummary_attempts offline someProps (initial someProps)))
                (lit "Failed to fetch") eq_refl eq_refl)
      as [st' [E [_ [He _]]]].
    exists st'. split; [exact E | apply He; discriminate].
Defined.

(** The values JavaScript takes for false: [undefined], [null], [false],
    [0] and the empty string. *)
Lemma falsy_cases (v : value) :
  truthy v = false <->
  v = undefined \/ v = Some JNull \/ v = Some (JBool false) \/
  v = Some (JNum 0) \/ v = Some (JStr []).
Proof.
  split.
  - destruct v as [[| [|] | z | [|c s] | xs | fs]|]; simpl; intros H;
      try discriminate; try (apply negb_false_iff, Z.eqb_eq in H; subst); auto 7.
  - intros [-> | [-> | [-> | [-> | ->]]]]; reflexivity.
Qed.



End SummaryFetcher.

(** ** The markdown transform *)

Section Markdown.

Import JS AiSummary.

Lemma afterStars_some (s rest : jsstr) :
  afterStars s = Some rest <-> s = 42%N :: 42%N :: rest.
Proof.
  unfold afterStars. split.
  - destruct s as [|c [|d s]]; try discriminate.
    + destruct c as [|c]; try discriminate.
      do 6 (destruct c as [c|c|]; try discriminate).
    + destruct c as [|c]; try discriminate.
      do 6 (destruct c as [c|c|]; try discriminate).
      destruct d as [|d]; try discriminate.
      do 6 (destruct d as [d|d|]; try discriminate).
      now intros [= ->].
  - now intros ->.
Qed.






Lemma replaceAll_copy {dot : N -> bool} {c : N} {s : jsstr} :
  matchBold dot (c :: s) = None ->
  replaceAll dot (c :: s) = c :: replaceAll dot s.
Proof.
  intros H. unfold replaceAll. cbn [List.length replaceBold]. now rewrite H.
Qed.

Lemma terminator_not_star (t : N) : isLineTerminator t = true -> t <> 42%N.
Proof. intros H ->. discriminate. Qed.














End Markdown.

(** ** The result fetchers *)

Section ResultFetchers.

Import JS SearchResults.

Lemma orElse_truthy (m d : jsstr) :
  d <> [] -> truthy (Some (JStr (orElse m d))) = true.
Proof. destruct m, d; simpl; congruence. Qed.




(** C10.  When a text fetch fails, whatever the reason, the catch block
    sets the error message and empties the result list in one settlement:
    the state after it shows the message and no result card.  A state that
    shows an error next to results can only come from a payload that carried
    both. *)
Theorem failed_fetch_clears_results (address : option jsstr) (r : Fetched)
  (st : State) (m : jsstr) :
  attempt address r = Throw m ->
  let st' := fetchResults_settle (attempt address r) st in
  results st' = [] /\
  error st' = Some (JStr (orElse m (lit "Something went wrong."))) /\
  truthy (error st') = true /\ loading st' = false /\
  (viewMode st = text ->
   exists panels,
     render st' = Some panels /\ resultCards panels = [] /\
     errorPanel panels = error st' /\ noResultsPanel panels = false).
Proof.
  intros H st'. subst st'. rewrite H.
  set (st' := fetchResults_settle (Throw m) st).
  assert (Hr : results st' = []) by reflexivity.
  assert (He : error st' = Some (JStr (orElse m (lit "Something went wrong."))))
    by reflexivity.
  assert (Hl : loading st' = false) by reflexivity.
  assert (Hv : viewMode st' = viewMode st) by reflexivity.
  assert (Ht : truthy (error st') = true)
    by (rewrite He; apply orElse_truthy; discriminate).
  split; [exact Hr|]. split; [exact He|]. split; [exact Ht|]. split; [exact Hl|].
  intros Hmode. unfold render. rewrite Hv, Hmode, Hr, Hl, Ht.
  eexists. split; [reflexivity|]. repeat split.
Qed.

Lemma failed_fetch_clears_results_witness :
  results (fetchResults_settle
             (attempt (Some []) (Responded 503 (BodyInvalid []))) showingTwo) = [] /\
  error (fetchResults_settle
           (attempt (Some []) (Responded 503 (BodyInvalid []))) showingTwo) =
    Some (JStr (lit "HTTP error! status: 503")).
Proof.
  destruct (failed_fetch_clears_results (Some []) (Responded 503 (BodyInvalid []))
              showingTwo (lit "HTTP error! status: 503") eq_refl)
    as [H1 [H2 _]].
  split; [exact H1 | exact H2].
Defined.

(** An error shown next to results: the results are the payload's own. *)
Lemma error_with_results (c : completion Payload) (st : State) :
  results (fetchResults_settle c st) <> [] ->
  exists payload,
    c = Return payload /\
    results (fetchResults_settle c st) = payloadResults payload.
Proof.
  destruct c as [m|payload]; cbn.
  - congruence.
  - intros _. exists payload. split; [reflexivity|].
    destruct (truthy (payloadError payload)); reflexivity.
Qed.

End ResultFetchers.

(** ** Where fetch errors go *)

Section FetchErrors.

Import JS SearchResults.

(** C5, as stated, fails for the content fetcher: after a 500 answer the
    view state is what it was before the call, with no message in it; the
    message goes to an alert dialog. *)
Lemma content_error_goes_to_alert :
  fetchPageContent pageA (Responded 500 (BodyInvalid [])) (initial somewhere) =
  (initial somewhere,
   [Alert (lit "Failed to fetch page content: HTTP error! status: 500")]) /\
  error (initial somewhere) = None /\ contentView (initial somewhere) = None.
Proof. repeat split. Qed.

(** A payload with neither [content] nor [error] is dropped without a
    trace. *)
Lemma content_payload_without_content :
  fetchPageContent pageA (Responded 200 (BodyJson (JObj []))) (initial somewhere) =
  (initial somewhere, []).
Proof. reflexivity. Qed.

Lemma attempt_not_ok (a : jsstr) (status : N) (body : Body) :
  ok status = false ->
  attempt (Some a) (Responded status body) =
  Throw (lit "HTTP error! status: " ++ decimalN status).
Proof. intros H. unfold attempt. now rewrite H. Qed.

Lemma attempt_no_array (a : jsstr) (status : N) (data : json) (v : value) :
  ok status = true ->
  getProp (Some data) (lit "results") = Return v ->
  (forall xs, v <> Some (JArr xs)) ->
  attempt (Some a) (Responded status (BodyJson data)) =
  Throw (lit "Unexpected data format from API").
Proof.
  intros Hok Hv Hn. unfold attempt. rewrite Hok, Hv. cbn [negb].
  destruct v as [[| | | |xs|]|]; try reflexivity. now destruct (Hn xs).
Qed.

(** C5, amended.  Every failure of a result fetch (text or image) is caught
    in the fetcher and its message is put in the component's [error] state,
    "Something went wrong." standing in for an empty one: a rejected fetch
    and a body that does not decode give their own message, a status
    outside 2xx gives "HTTP error! status: <status>", a payload without a
    results array gives "Unexpected data format from API".  Every error
    thrown in the content fetcher is caught too, and is reported by an alert
    dialog reading "Failed to fetch page content: <message>"; the view state
    keeps no message and the content view stays as it was. *)
Theorem fetch_errors_reported :
  (forall address r st m,
     attempt address r = Throw m ->
     error (fetchResults_settle (attempt address r) st) =
       Some (JStr (orElse m (lit "Something went wrong."))) /\
     truthy (error (fetchResults_settle (attempt address r) st)) = true) /\
  (forall address r st m,
     attempt address r = Throw m ->
     ImageSearch.error (ImageSearch.fetchResults_settle (attempt address r) st) =
       Some (JStr (orElse m (lit "Something went wrong.")))) /\
  (forall a m, attempt (Some a) (Rejected m) = Throw m) /\
  (forall a status body,
     ok status = false ->
     attempt (Some a) (Responded status body) =
     Throw (lit "HTTP error! status: " ++ decimalN status)) /\
  (forall a status m,
     ok status = true ->
     attempt (Some a) (Responded status (BodyInvalid m)) = Throw m) /\
  (forall a status data v,
     ok status = true ->
     getProp (Some data) (lit "results") = Return v ->
     (forall xs, v <> Some (JArr xs)) ->
     attempt (Some a) (Responded status (BodyJson data)) =
     Throw (lit "Unexpected data format from API")) /\
  (forall u address r st m,
     contentAttempt address r = Throw m ->
     fetchPageContent_settle u (contentAttempt address r) st =
     (setLoadingContent false st,
      [Alert (lit "Failed to fetch page content: " ++ m)])).
Proof.
  split; [|split; [|split; [|split; [|split; [|split]]]]].
  - intros address r st m H. rewrite H. split; [reflexivity|].
    apply orElse_truthy. discriminate.
  - intros address r st m H. rewrite H. reflexivity.
  - reflexivity.
  - exact attempt_not_ok.
  - intros a status m H. unfold attempt. now rewrite H.
  - exact attempt_no_array.
  - intros u address r st m H. rewrite H. reflexivity.
Qed.

Lemma fetch_errors_reported_witness :
  error (fetchResults_settle
           (attempt (Some []) (Responded 200 (BodyJson (JObj [])))) showingTwo) =
    Some (JStr (lit "Unexpected data format from API")) /\
  fetchPageContent_settle pageA
    (contentAttempt (Some []) (Rejected (lit "Failed to fetch"))) showingTwo =
    (setLoadingContent false showingTwo,
     [Alert (lit "Failed to fetch page content: Failed to fetch")]).
Proof.
  destruct fetch_errors_reported as [H1 [_ [_ [_ [_ [_ H7]]]]]].
  split.
  - apply (H1 (Some []) (Responded 200 (BodyJson (JObj []))) showingTwo
              (lit "Unexpected data format from API") eq_refl).
  - apply (H7 pageA (Some []) (Rejected (lit "Failed to fetch")) showingTwo
              (lit "Failed to fetch") eq_refl).
Defined.

End FetchErrors.

(** ** The address of the text search *)

Section SearchAddress.

Import JS SearchResults.

Lemma searchUrl_built (q e : jsstr) (n : N) (address : jsstr) :
  searchUrl q e n = Some address ->
  exists encoded,
    encodeURIComponent q = Some encoded /\
    address =
      lit "http://https://azizah.onrender.com/api/search/?query=" ++ encoded ++
      lit "&search_engine=" ++ e ++ lit "&num_results=" ++ decimalN n.
Proof.
  unfold searchUrl. destruct (encodeURIComponent q) as [encoded|]; [|discriminate].
  intros [= <-]. now exists encoded.
Qed.

(** Whatever the query, engine and count, the address built has the scheme
    [http] and the host [https]. *)
Lemma searchUrl_host (q e : jsstr) (n : N) (address : jsstr) :
  searchUrl q e n = Some address ->
  Url.scheme address = lit "http" /\ Url.host address = Some (lit "https").
Proof.
  intros H. apply searchUrl_built in H as [encoded [_ ->]].
  split; reflexivity.
Qed.

(** C7.  The address the text search fetches for the query "rust ownership",
    the engine google and five results: the query string is as the interface
    contract has it, but the address opens with two schemes, so its host is
    [https] and not the search backend; the image search, next to it, builds
    a well-formed address. *)
Theorem searchUrl_double_scheme :
  searchUrl (lit "rust ownership") (lit "google") 5 =
    Some (lit "http://https://azizah.onrender.com/api/search/?query=rust%20ownership&search_engine=google&num_results=5") /\
  option_map Url.host (searchUrl (lit "rust ownership") (lit "google") 5) =
    Some (Some (lit "https")) /\
  option_map Url.host
    (ImageSearch.imageSearchUrl (lit "rust ownership") (lit "google") 5) =
    Some (Some (lit "localhost")).
Proof. repeat split. Qed.

End SearchAddress.

(** ** Fetches that overlap *)

Section Overlap.

Import JS SearchResults.


(** The same for results: google is replaced by bing while the first fetch
    is in flight; the answer for google arrives last and is what the list
    shows under the engine bing. *)
Lemma stale_results_shown :
  let s :=
    run (mounted somewhere)
      [ChangeEngine (lit "bing");
       ResultsResolve 1
         (Responded 200 (BodyJson (JObj [(lit "results", JArr [JStr (lit "from bing")])])));
       ResultsResolve 0
         (Responded 200 (BodyJson (JObj [(lit "results", JArr [JStr (lit "from google")])])))] in
  selectedEngine (view s) = lit "bing" /\
  results (view s) = [JStr (lit "from google")].
Proof. split; reflexivity. Qed.





End Overlap.

(** ** The empty query *)

Section EmptyQuery.

Import JS SearchInterface.

Lemma eqb_refl (a : jsstr) : eqb a a = true.
Proof. unfold eqb. destruct (list_eq_dec N.eq_dec a a); congruence. Qed.

Lemma deps_eqb_refl (d : jsstr * jsstr * N * SearchResults.ViewMode) :
  SearchResults.deps_eqb d d = true.
Proof.
  destruct d as [[[q e] n] m]. unfold SearchResults.deps_eqb.
  rewrite !eqb_refl, N.eqb_refl. destruct m; reflexivity.
Qed.

(** Passing the child the query it already has starts nothing. *)
Lemma same_query_no_effect (s : SearchResults.Session) :
  SearchResults.step s
    (SearchResults.NewQuery (SearchResults.query (SearchResults.props s))) = s.
Proof.
  cbn [SearchResults.step].
  assert (E : SearchResults.withQuery
                (SearchResults.query (SearchResults.props s)) s = s).
  { destruct s as [[q f e n] v pr pc al]. reflexivity. }
  rewrite E. unfold SearchResults.runEffect. now rewrite deps_eqb_refl.
Qed.

(** C3.  Submitting a query that is empty or made of white space only
    changes nothing: [handleSearch] returns the state it was given (so
    [submittedQuery] and [showResults] keep their values), the page below is
    what it was, with no fetch started; and for an empty query the summary
    panel runs no request and renders nothing.  The form that has no
    [submittedQuery] ignores such a submit as well. *)
Theorem blank_submit_is_noop (pg : Page) :
  blank (searchQuery (form pg)) = true ->
  handleSearch (form pg) = form pg /\
  submittedQuery (handleSearch (form pg)) = submittedQuery (form pg) /\
  showResults (handleSearch (form pg)) = showResults (form pg) /\
  (consistent pg -> submit pg = pg) /\
  (forall net p st,
     AiSummary.query p = [] ->
     AiSummary.effect net p st = Some (st, []) /\ AiSummary.render p st = None) /\
  (forall p st, SearchResults.query p = [] -> SearchResults.effectFetches p st = false) /\
  (forall st, blank (SearchInterfaceDraft.searchQuery st) = true ->
     SearchInterfaceDraft.handleSearch st = st).
Proof.
  intros Hb. apply trim_blank in Hb.
  assert (E : handleSearch (form pg) = form pg)
    by (unfold handleSearch; now rewrite Hb).
  split; [exact E|]. rewrite E. split; [reflexivity|]. split; [reflexivity|].
  split; [|split; [|split]].
  - intros Hc. unfold submit. rewrite E. unfold consistent in Hc.
    destruct pg as [f c]. cbn [form child] in *.
    destruct (resultsProps f) as [p|], c as [s|]; try contradiction.
    + subst p. now rewrite same_query_no_effect.
    + reflexivity.
  - intros net p st Hq. unfold AiSummary.effect, AiSummary.render.
    rewrite Hq. now split.
  - intros p st Hq. unfold SearchResults.effectFetches. now rewrite Hq.
  - intros st Hd. apply trim_blank in Hd.
    unfold SearchInterfaceDraft.handleSearch. now rewrite Hd.
Qed.

Lemma blank_submit_is_noop_witness :
  handleSearch (form blankDraft) = form blankDraft /\ submit blankDraft = blankDraft.
Proof.
  destruct (blank_submit_is_noop blankDraft eq_refl) as [H1 [_ [_ [H4 _]]]].
  split; [exact H1|]. apply H4. reflexivity.
Defined.

End EmptyQuery.

(** ** The chain of summary attempts, whatever the network does *)

Section SummaryChain.

Import JS AiSummary.

(** The shape of every settled chain started at index [retry]. *)
Lemma chain_shape (net : nat -> Fetched) (p : Props) :
  forall fuel retry st st' log,
    fetchSummary fuel net p retry st = Some (st', log) ->
    exists n,
      1 <= n /\ (n = 1 \/ retry + n <= List.length API_KEYS) /\
      attempts log = map (fun k => (k, request p k)) (seq retry n) /\
      timers log = map (fun k => (800%N, k)) (seq (S retry) (n - 1)) /\
      loading st' = false /\
      (n = 1 -> currentApiKeyIndex st' = currentApiKeyIndex st) /\
      (1 < n -> currentApiKeyIndex st' = retry + n - 1) /\
      Outcome net p (retry + n - 1) st' log.
Proof.
  induction fuel as [|fuel IH]; intros retry st st' log; [discriminate|].
  cbn [fetchSummary]. destruct (attempt (net retry)) as [m|html] eqn:Ha.
  - unfold onError. destruct (retryable m).
    + destruct (retry + 1 <? List.length API_KEYS) eqn:Hlt.
      * apply Nat.ltb_lt in Hlt.
        destruct (fetchSummary fuel net p (retry + 1) _) as [[st3 l]|] eqn:E;
          [|discriminate].
        intros [= <- <-]. apply IH in E.
        destruct E as [n [Hn [Hb [Hat [Hti [Hl [H1 [Hgt Hout]]]]]]]].
        exists (S n).
        split; [lia|]. split; [right; lia|].
        split; [cbn [attempts flat_map app seq map]; fold (attempts l);
                rewrite Hat; now rewrite Nat.add_1_r|].
        split.
        { cbn [timers flat_map app]. fold (timers l). rewrite Hti.
          replace (S n - 1) with (S (n - 1)) by lia.
          cbn [seq map]. now rewrite Nat.add_1_r. }
        split; [exact Hl|]. split; [lia|].
        split.
        { intros _. destruct (Nat.eq_dec n 1) as [->|Hne].
          - rewrite (H1 eq_refl). cbn [currentApiKeyIndex setLoading setCurrentApiKeyIndex].
            rewrite (Nat.mod_small _ _ Hlt). lia.
          - rewrite Hgt by lia. lia. }
        replace (retry + S n - 1) with (retry + 1 + n - 1) by lia.
        destruct Hout as [[e [He [Hne [Hs Hc]]]] | [He [Hr Hc]]].
        -- left. exists e. repeat split; assumption.
        -- right. repeat split; assumption.
      * intros [= <- <-]. exists 1.
        split; [lia|]. split; [now left|]. split; [reflexivity|].
        split; [reflexivity|]. split; [reflexivity|]. split; [reflexivity|].
        split; [lia|]. left. exists exhausted. repeat split. discriminate.
    + intros [= <- <-]. exists 1.
      split; [lia|]. split; [now left|]. split; [reflexivity|].
      split; [reflexivity|]. split; [reflexivity|]. split; [reflexivity|].
      split; [lia|]. left. eexists. split; [reflexivity|].
      split; [apply orElse_nonempty; discriminate|]. split; reflexivity.
  - intros [= <- <-]. exists 1.
    split; [lia|]. split; [now left|].
    split; [destruct (onSummaryComplete p); reflexivity|].
    split; [destruct (onSummaryComplete p); reflexivity|].
    split; [reflexivity|]. split; [reflexivity|]. split; [lia|].
    right. split; [reflexivity|].
    split; [replace (retry + 1 - 1) with retry by lia; exact Ha|].
    destruct (onSummaryComplete p); reflexivity.
Qed.

(** X1.  Whatever the network answers, a query costs between one and seven
    requests: attempt [k] uses key [k] of the pool, the attempts are numbered
    from 0 without a gap, two attempts are 800 ms apart, and when the chain
    has settled nothing is loading. *)
Theorem summary_requests_bounded (net : nat -> Fetched) (p : Props) (st : State) :
  exists st' log n,
    fetchSummary (List.length API_KEYS) net p 0 st = Some (st', log) /\
    1 <= n <= List.length API_KEYS /\
    attempts log = map (fun k => (k, request p k)) (seq 0 n) /\
    map (fun a => authorization (snd a)) (attempts log) =
      map (fun key => lit "Bearer " ++ key) (firstn n API_KEYS) /\
    timers log = map (fun k => (800%N, k)) (seq 1 (n - 1)) /\
    loading st' = false.
Proof.
  destruct (fetchSummary_settles net p (List.length API_KEYS) 0 st) as [st' [log E]];
    [simpl; lia | simpl; lia |].
  destruct (chain_shape net p _ _ _ _ _ E) as [n [Hn [Hb [Hat [Hti [Hl _]]]]]].
  exists st', log, n. split; [exact E|].
  assert (Hle : n <= List.length API_KEYS) by (destruct Hb; simpl in *; lia).
  split; [lia|]. split; [exact Hat|]. split; [|split; assumption].
  rewrite Hat, map_map. cbn [snd].
  change (List.length API_KEYS) with 7 in Hle.
  do 8 (destruct n as [|n]; [reflexivity || lia|]). lia.
Qed.

(** How the chain run by the effect ends. *)
Lemma effect_outcome (net : nat -> Fetched) (p : Props) (st st' : State)
  (log : list Effect) :
  effect net p st = Some (st', log) ->
  query p <> [] ->
  (exists e, error st' = Some e /\ e <> [] /\ summary st' = [] /\
             ResultsView.completed log = false /\
             render p st' = Some (ErrorText e)) \/
  (error st' = None /\ ResultsView.completed log = onSummaryComplete p /\
   render p st' = Some (SummaryHtml (summary st')) /\
   exists k, k < List.length API_KEYS /\ attempt (net k) = Return (summary st')).
Proof.
  intros E Hq. unfold effect in E. destruct (query p) as [|c q] eqn:Eq; [congruence|].
  destruct (chain_shape net p _ _ _ _ _ E) as [n [Hn [Hb [_ [_ [Hl [_ [_ Hout]]]]]]]].
  destruct Hout as [[e [He [Hne [Hs Hc]]]] | [He [Hr Hc]]].
  - left. exists e. repeat split; try assumption.
    unfold render. rewrite Eq, Hl, He. destruct e; [congruence | reflexivity].
  - right. split; [exact He|]. split; [exact Hc|]. split.
    + unfold render. rewrite Eq, Hl, He. reflexivity.
    + exists (0 + n - 1). split; [destruct Hb; simpl in *; lia | exact Hr].
Qed.






(** X4.  The keys used do not depend on the [apiKeyIndex] prop nor on the
    state the component is in: two runs for the same query on the same
    network send the same requests, and the first request always carries
    the first key of the pool. *)
Theorem keys_start_from_first (net : nat -> Fetched) (p p' : Props)
  (st st' : State) :
  query p = query p' ->
  option_map (fun r => attempts (snd r)) (effect net p st) =
  option_map (fun r => attempts (snd r)) (effect net p' st') /\
  (query p <> [] ->
   exists s log rest,
     effect net p st = Some (s, log) /\
     attempts log = (0, request p 0) :: rest /\
     authorization (request p 0) = lit "Bearer " ++ nth 0 API_KEYS []).
Proof.
  intros Hq.
  assert (Hreq : forall k, request p k = request p' k)
    by (intros k; unfold request; now rewrite Hq).
  split.
  - unfold effect. rewrite <- Hq. destruct (query p) as [|c q]; [reflexivity|].
    destruct (fetchSummary_settles net p (List.length API_KEYS) 0 st)
      as [s [log E]]; [simpl; lia | simpl; lia|].
    destruct (fetchSummary_settles net p' (List.length API_KEYS) 0 st')
      as [s' [log' E']]; [simpl; lia | simpl; lia|].
    rewrite E, E'. cbn [option_map snd]. f_equal.
    assert (G : forall fuel retry a b sa la sb lb,
               fetchSummary fuel net p retry a = Some (sa, la) ->
               fetchSummary fuel net p' retry b = Some (sb, lb) ->
               attempts la = attempts lb).
    { clear -Hreq. intros fuel.
      induction fuel as [|fuel IH]; intros retry a b sa la sb lb; [discriminate|].
      cbn [fetchSummary]. rewrite <- Hreq.
      destruct (attempt (net retry)) as [m|html].
      - unfold onError. destruct (retryable m).
        + destruct (retry + 1 <? List.length API_KEYS).
          * destruct (fetchSummary fuel net p (retry + 1) _) as [[s1 l1]|] eqn:E1;
              [|discriminate].
            destruct (fetchSummary fuel net p' (retry + 1) _) as [[s2 l2]|] eqn:E2;
              [|discriminate].
            intros [= _ <-] [= _ <-]. cbn [attempts flat_map app].
            f_equal. exact (IH _ _ _ _ _ _ _ E1 E2).
          * intros [= _ <-] [= _ <-]. reflexivity.
        + intros [= _ <-] [= _ <-]. reflexivity.
      - intros [= _ <-] [= _ <-].
        destruct (onSummaryComplete p), (onSummaryComplete p'); reflexivity. }
    exact (G _ _ _ _ _ _ _ _ E E').
  - intros Hne. unfold effect. destruct (query p) as [|c q]; [congruence|].
    destruct (fetchSummary_settles net p (List.length API_KEYS) 0 st)
      as [s [log E]]; [simpl; lia | simpl; lia|].
    destruct (chain_shape net p _ _ _ _ _ E) as [n [Hn [_ [Hat _]]]].
    exists s, log. destruct n as [|n]; [lia|]. cbn [seq map] in Hat.
    eexists. split; [exact E|]. split; [exact Hat | reflexivity].
Qed.

Lemma keys_start_from_first_witness :
  option_map (fun r => attempts (snd r))
    (effect rateLimited someProps (initial someProps)) =
  option_map (fun r => attempts (snd r))
    (effect rateLimited
       {| query := lit "rust ownership"; onSummaryComplete := false; apiKeyIndex := 4 |}
       (setCurrentApiKeyIndex 4 (initial someProps))).
Proof.
  apply (proj1 (keys_start_from_first rateLimited someProps
                  {| query := lit "rust ownership"; onSummaryComplete := false;
                     apiKeyIndex := 4 |}
                  (initial someProps)
                  (setCurrentApiKeyIndex 4 (initial someProps)) eq_refl)).
Defined.





End SummaryChain.

(** ** More on the markdown transform *)

Section MarkdownMore.

Import JS AiSummary.

Lemma newlineToBr_no_newline (text : jsstr) : ~ In 10%N (newlineToBr text).
Proof.
  unfold newlineToBr. rewrite in_flat_map. intros [c [_ H]].
  destruct (N.eqb c 10) eqn:E.
  - vm_compute in H. intuition discriminate.
  - destruct H as [H|[]]. subst. now rewrite N.eqb_refl in E.
Qed.

Lemma newlineToBr_plain (text : jsstr) :
  ~ In 10%N text -> newlineToBr text = text.
Proof.
  unfold newlineToBr. induction text as [|c text IH]; [reflexivity|].
  intros H. cbn [flat_map]. destruct (N.eqb c 10) eqn:E.
  - apply N.eqb_eq in E. subst. exfalso. apply H. now left.
  - cbn [app]. rewrite IH; [reflexivity|]. intros Hin. apply H. now right.
Qed.

Lemma includes_tail (c : N) (s p : jsstr) :
  includes (c :: s) p = false -> includes s p = false.
Proof. cbn [includes]. now intros H%orb_false_iff. Qed.

Lemma boldToStrong_plain (text : jsstr) :
  includes text (lit "**") = false -> boldToStrong text = text.
Proof.
  unfold boldToStrong. induction text as [|c text IH]; [reflexivity|].
  intros H. rewrite replaceAll_copy.
  - rewrite IH; [reflexivity | exact (includes_tail _ _ _ H)].
  - unfold matchBold. destruct (afterStars (c :: text)) as [r|] eqn:E; [|reflexivity].
    apply afterStars_some in E. rewrite E in H. discriminate.
Qed.

(** X7.  The rendered summary never holds a newline; and a text with no
    [**] and no newline, markup such as [<script>] included, is rendered as
    it is. *)
Theorem renderMarkdown_plain :
  (forall text, ~ In 10%N (renderMarkdown text)) /\
  (forall text,
     includes text (lit "**") = false -> ~ In 10%N text ->
     renderMarkdown text = text).
Proof.
  split.
  - intros text. apply newlineToBr_no_newline.
  - intros text Hb Hn. unfold renderMarkdown.
    rewrite (boldToStrong_plain text Hb). now apply newlineToBr_plain.
Qed.

Lemma renderMarkdown_plain_witness :
  renderMarkdown (lit "<script>alert(1)</script>") = lit "<script>alert(1)</script>".
Proof.
  apply (proj2 renderMarkdown_plain).
  - reflexivity.
  - vm_compute. intuition discriminate.
Defined.

End MarkdownMore.

(** ** The search form *)

Section Form.

Import JS SearchInterface.

Lemma trimStart_split (s : jsstr) :
  exists pre, s = pre ++ trimStart s /\ forallb isTrimmed pre = true.
Proof.
  induction s as [|c s [pre [E H]]]; [now exists []|].
  cbn [trimStart]. destruct (isTrimmed c) eqn:Hc.
  - exists (c :: pre). split; [cbn; now rewrite <- E | cbn; now rewrite Hc].
  - now exists [].
Qed.

Lemma trimStart_head (s : jsstr) (c : N) (t : jsstr) :
  trimStart s = c :: t -> isTrimmed c = false.
Proof.
  induction s as [|d s IH]; [discriminate|]. cbn [trimStart].
  destruct (isTrimmed d) eqn:Hd; [exact IH|]. now intros [= <- _].
Qed.

Lemma trimStart_idem (s : jsstr) : trimStart (trimStart s) = trimStart s.
Proof.
  destruct (trimStart s) as [|c t] eqn:E; [reflexivity|].
  cbn [trimStart]. now rewrite (trimStart_head s c t E).
Qed.

(** Stripping the front leaves the last character in place. *)
Lemma trimStart_keeps_last (l : jsstr) (c : N) :
  isTrimmed c = false -> exists l', trimStart (l ++ [c]) = l' ++ [c].
Proof.
  intros Hc. induction l as [|d l [l' IH]].
  - exists []. cbn. now rewrite Hc.
  - cbn [app trimStart]. destruct (isTrimmed d).
    + now exists l'.
    + now exists (d :: l).
Qed.

Lemma forallb_rev (f : N -> bool) (l : jsstr) :
  forallb f (rev l) = forallb f l.
Proof.
  induction l as [|a l IH]; [reflexivity|].
  cbn [rev forallb]. rewrite forallb_app, IH. cbn. now rewrite andb_true_r, andb_comm.
Qed.

(** The text between the blanks at both ends. *)
Lemma trim_split (s : jsstr) :
  exists pre post,
    s = pre ++ trim s ++ post /\
    forallb isTrimmed pre = true /\ forallb isTrimmed post = true.
Proof.
  destruct (trimStart_split s) as [pre [E Hpre]].
  destruct (trimStart_split (rev (trimStart s))) as [post [E' Hpost]].
  exists pre, (rev post). split; [|split; [exact Hpre | now rewrite forallb_rev]].
  unfold trim, trimEnd. rewrite <- rev_app_distr, <- E', rev_involutive. exact E.
Qed.

(** Nothing is left to strip from a trimmed text, at either end. *)
Lemma trim_stripped (s : jsstr) :
  trimStart (trim s) = trim s /\ trimEnd (trim s) = trim s.
Proof.
  unfold trim. split.
  - destruct (trimStart s) as [|c t] eqn:E; [reflexivity|].
    pose proof (trimStart_head s c t E) as Hc.
    unfold trimEnd. cbn [rev].
    destruct (trimStart_keeps_last (rev t) c Hc) as [l' ->].
    rewrite rev_app_distr. cbn [rev app trimStart]. now rewrite Hc.
  - unfold trimEnd. now rewrite rev_involutive, trimStart_idem.
Qed.

Lemma trim_idem (s : jsstr) : trim (trim s) = trim s.
Proof.
  destruct (trim_stripped s) as [H1 H2].
  unfold trim at 1. now rewrite H1, H2.
Qed.

(** X8.  A submit with a query that is not blank shows the results and
    stores as the submitted query the draft without the blanks at its two
    ends: the draft is blanks, then the submitted query, then blanks; the
    submitted query is not empty and has no blank left to strip at either
    end; the draft itself is kept, and a second submit changes nothing
    more. *)
Theorem submit_stores_trimmed (st : State) :
  blank (searchQuery st) = false ->
  let st' := handleSearch st in
  showResults st' = true /\
  submittedQuery st' = trim (searchQuery st) /\
  submittedQuery st' <> [] /\
  (exists pre post,
     searchQuery st = pre ++ submittedQuery st' ++ post /\
     blank pre = true /\ blank post = true) /\
  trimStart (submittedQuery st') = submittedQuery st' /\
  trimEnd (submittedQuery st') = submittedQuery st' /\
  searchQuery st' = searchQuery st /\ activeFeature st' = activeFeature st /\
  handleSearch st' = st'.
Proof.
  intros Hb st'.
  assert (Hne : trim (searchQuery st) <> []).
  { intros H. apply trim_blank in H. unfold blank in Hb. congruence. }
  assert (E : st' = {| searchQuery := searchQuery st;
                       activeFeature := activeFeature st;
                       showResults := true;
                       submittedQuery := trim (searchQuery st) |}).
  { subst st'. unfold handleSearch.
    destruct (trim (searchQuery st)); [congruence | reflexivity]. }
  rewrite E. cbn [showResults submittedQuery searchQuery activeFeature].
  split; [reflexivity|]. split; [reflexivity|]. split; [exact Hne|].
  split; [exact (trim_split (searchQuery st))|].
  destruct (trim_stripped (searchQuery st)) as [H1 H2].
  split; [exact H1|]. split; [exact H2|]. split; [reflexivity|].
  split; [reflexivity|].
  unfold handleSearch. cbn [searchQuery activeFeature].
  destruct (trim (searchQuery st)); [congruence | reflexivity].
Qed.

Lemma submit_stores_trimmed_witness :
  submittedQuery
    (handleSearch (setSearchQuery (lit "  rust ownership ") initial)) =
  lit "rust ownership".
Proof.
  destruct (submit_stores_trimmed (setSearchQuery (lit "  rust ownership ") initial)
              eq_refl) as [_ [H _]].
  rewrite H. reflexivity.
Defined.

Lemma step_invariant (st : State) (ev : FormEvents.Event) :
  FormInvariant st -> FormInvariant (FormEvents.step st ev).
Proof.
  intros [Ht Hf]. destruct ev as [q|]; cbn [FormEvents.step].
  - split; [exact Ht | exact Hf].
  - unfold handleSearch. destruct (trim (searchQuery st)) as [|c t] eqn:E.
    + split; [exact Ht | exact Hf].
    + split; [|discriminate]. intros _. cbn [submittedQuery].
      split; [discriminate|]. rewrite <- E. apply trim_idem.
Qed.

Lemma step_keeps_results (st : State) (ev : FormEvents.Event) :
  showResults st = true -> showResults (FormEvents.step st ev) = true.
Proof.
  intros H. destruct ev as [q|]; cbn [FormEvents.step]; [exact H|].
  unfold handleSearch. destruct (trim (searchQuery st)); [exact H | reflexivity].
Qed.

(** X9.  Whatever the user types and submits, from the first render on: the
    results are shown only for a submitted query that is neither empty nor
    padded with blanks, so the results component is never handed an empty
    query; typing alone never changes what it is handed; and once shown the
    results stay shown. *)
Theorem form_invariant (evs : list FormEvents.Event) :
  let st := FormEvents.run initial evs in
  (forall p, resultsProps st = Some p ->
     SearchResults.query p <> [] /\
     trim (SearchResults.query p) = SearchResults.query p) /\
  (showResults st = false -> submittedQuery st = []) /\
  (forall q, resultsProps (FormEvents.step st (FormEvents.Type_ q)) = resultsProps st) /\
  (forall more, showResults st = true -> showResults (FormEvents.run st more) = true).
Proof.
  intros st.
  assert (Hinv : forall l s, FormInvariant s -> FormInvariant (FormEvents.run s l)).
  { induction l as [|ev l IH]; intros s Hs; [exact Hs|].
    cbn [FormEvents.run fold_left]. apply IH. now apply step_invariant. }
  assert (H0 : FormInvariant initial) by (split; [discriminate | reflexivity]).
  destruct (Hinv evs initial H0) as [Ht Hf]. fold st in Ht, Hf.
  split; [|split; [exact Hf|split]].
  - intros p. unfold resultsProps. destruct (showResults st) eqn:E; [|discriminate].
    intros [= <-]. cbn [SearchResults.query]. now apply Ht.
  - reflexivity.
  - induction more as [|ev more IH] using rev_ind; [trivial|].
    intros H. unfold FormEvents.run. rewrite fold_left_app. cbn [fold_left].
    apply step_keeps_results. exact (IH H).
Qed.

End Form.

(** ** What the text results component shows after a fetch *)

Section ResultsShown.

Import JS SearchResults ResultsView.






(** X12.  A failed fetch empties the list but leaves the total and the
    search time of the fetch before it: the badge keeps showing the old
    count above an empty list.  The engine, the view mode and an open
    content view are untouched as well. *)
Theorem failure_keeps_count (address : option jsstr) (r : Fetched) (st : State)
  (m : jsstr) :
  attempt address r = Throw m ->
  let st' := fetchResults_settle (attempt address r) (fetchResults_start st) in
  results st' = [] /\
  totalResults st' = totalResults st /\ executionTime st' = executionTime st /\
  countBadge st' = toString (totalResults st) ++ lit " results" /\
  selectedEngine st' = selectedEngine st /\ viewMode st' = viewMode st /\
  contentView st' = contentView st /\ loadingContent st' = loadingContent st.
Proof.
  intros H st'. subst st'. rewrite H. repeat split.
Qed.

Lemma failure_keeps_count_witness :
  countBadge (fetchResults_settle (attempt (Some []) (Rejected (lit "Failed to fetch")))
                (fetchResults_start showingTwo)) = lit "2 results" /\
  results (fetchResults_settle (attempt (Some []) (Rejected (lit "Failed to fetch")))
             (fetchResults_start showingTwo)) = [].
Proof.
  destruct (failure_keeps_count (Some []) (Rejected (lit "Failed to fetch")) showingTwo
              (lit "Failed to fetch") eq_refl) as [H1 [_ [_ [H4 _]]]].
  split; [rewrite H4; reflexivity | exact H1].
Defined.

End ResultsShown.

(** ** When the text results component fetches *)

Section WhenItFetches.

Import JS SearchResults.

Lemma eqb_neq (a b : jsstr) : a <> b -> eqb a b = false.
Proof. intros H. unfold eqb. destruct (list_eq_dec N.eq_dec a b); congruence. Qed.

Lemma ViewMode_eqb_eq (a b : ViewMode) : ViewMode_eqb a b = true <-> a = b.
Proof. destruct a, b; cbn; split; congruence. Qed.

Lemma without_length {A : Type} (k : nat) (l : list A) :
  k < List.length l -> List.length (without k l) = List.length l - 1.
Proof.
  intros H. unfold without. rewrite length_app, length_firstn, length_skipn. lia.
Qed.

(** X13.  Setting the engine, the view mode or the query to the value it
    has starts nothing and changes nothing. *)
Theorem same_dependencies_start_nothing (s : Session) :
  step s (ChangeEngine (selectedEngine (view s))) = s /\
  step s (ToggleMode (viewMode (view s))) = s /\
  step s (NewQuery (query (props s))) = s.
Proof.
  split; [|split].
  - cbn [step].
    assert (E : withView (changeSearchEngine (selectedEngine (view s)) (view s)) s = s)
      by (destruct s as [p [] pr pc al]; reflexivity).
    rewrite E. unfold runEffect. now rewrite deps_eqb_refl.
  - cbn [step].
    assert (E : withView (toggleViewMode (viewMode (view s)) (view s)) s = s)
      by (destruct s as [p [] pr pc al]; reflexivity).
    rewrite E. unfold runEffect. now rewrite deps_eqb_refl.
  - apply same_query_no_effect.
Qed.

(** X14.  Choosing another engine starts exactly one fetch, for the new
    engine, when the component is in text mode with a query that is not
    empty: the spinner comes up, the error is cleared and the cards of the
    old engine stay until the answer arrives.  In image mode, or with an
    empty query, it starts no text fetch at all. *)
Theorem engine_change_fetches_once (s : Session) (e : jsstr) :
  e <> selectedEngine (view s) ->
  let s' := step s (ChangeEngine e) in
  selectedEngine (view s') = e /\
  (viewMode (view s) = text -> query (props s) <> [] ->
   encodeURIComponent (query (props s)) <> None ->
   pendingResults s' =
     pendingResults s ++ [(query (props s), e, numResults (props s))] /\
   loading (view s') = true /\ error (view s') = None /\
   results (view s') = results (view s)) /\
  (viewMode (view s) = images \/ query (props s) = [] ->
   pendingResults s' = pendingResults s /\
   view s' = changeSearchEngine e (view s)).
Proof.
  intros Hne s'. subst s'. cbn [step]. unfold runEffect.
  assert (Hd : deps_eqb (deps s) (deps (withView (changeSearchEngine e (view s)) s)) = false).
  { unfold deps, deps_eqb. cbn [props view withView selectedEngine changeSearchEngine
                                 setSelectedEngine viewMode].
    rewrite eqb_refl, (eqb_neq _ _ (not_eq_sym Hne)). reflexivity. }
  rewrite Hd. cbn [orb].
  cbn [props view withView]. split; [|split].
  - destruct (negb (effectFetches (props s) (changeSearchEngine e (view s))));
      [reflexivity|].
    cbn [selectedEngine changeSearchEngine setSelectedEngine].
    destruct (searchUrl (query (props s)) e (numResults (props s))); reflexivity.
  - intros Hm Hq Henc. unfold effectFetches.
    destruct (query (props s)) as [|c q] eqn:Eq; [congruence|].
    cbn [viewMode changeSearchEngine setSelectedEngine]. rewrite Hm. cbn [ViewMode_eqb negb].
    cbn [selectedEngine setSelectedEngine]. unfold searchUrl.
    destruct (encodeURIComponent (c :: q)); [|congruence].
    cbn [option_map pendingResults view]. repeat split.
  - intros H. unfold effectFetches.
    destruct H as [Hm | Hq].
    + cbn [viewMode changeSearchEngine setSelectedEngine]. rewrite Hm.
      destruct (query (props s)); split; reflexivity.
    + rewrite Hq. split; reflexivity.
Qed.

Lemma engine_change_fetches_once_witness :
  pendingResults (step idle (ChangeEngine (lit "bing"))) =
    [(lit "rust ownership", lit "bing", 5%N)] /\
  loading (view (step idle (ChangeEngine (lit "bing")))) = true.
Proof.
  destruct (engine_change_fetches_once idle (lit "bing") ltac:(discriminate))
    as [_ [H _]].
  destruct (H eq_refl ltac:(discriminate) ltac:(discriminate)) as [H1 [H2 _]].
  split; [exact H1 | exact H2].
Defined.

(** X15.  The first answer to arrive turns the spinner off, whatever else is
    still in flight; it takes its own fetch off the list of pending ones and
    leaves the query, the engine and the view mode alone. *)
Theorem resolution_stops_spinner (s : Session) (k : nat) (r : Fetched)
  (captured : jsstr * jsstr * N) :
  nth_error (pendingResults s) k = Some captured ->
  let s' := step s (ResultsResolve k r) in
  loading (view s') = false /\
  List.length (pendingResults s') = List.length (pendingResults s) - 1 /\
  props s' = props s /\ selectedEngine (view s') = selectedEngine (view s) /\
  viewMode (view s') = viewMode (view s) /\
  pendingContent s' = pendingContent s.
Proof.
  intros Hk s'. subst s'. cbn [step]. rewrite Hk. destruct captured as [[q e] n].
  cbn [view props pendingResults pendingContent].
  assert (Hlt : k < List.length (pendingResults s))
    by (apply nth_error_Some; congruence).
  split; [reflexivity|]. split; [now apply without_length|].
  split; [reflexivity|].
  unfold fetchResults_settle.
  destruct (attempt (searchUrl q e n) r) as [m|pl]; [repeat split|].
  destruct (truthy (payloadError pl)); repeat split.
Qed.

Lemma resolution_stops_spinner_witness :
  loading (view (step (step (mounted somewhere) (ChangeEngine (lit "bing")))
                      (ResultsResolve 0 (Responded 200 (BodyJson nothingFound))))) = false /\
  List.length
    (pendingResults (step (step (mounted somewhere) (ChangeEngine (lit "bing")))
                          (ResultsResolve 0 (Responded 200 (BodyJson nothingFound))))) = 1.
Proof.
  destruct (resolution_stops_spinner
              (step (mounted somewhere) (ChangeEngine (lit "bing"))) 0
              (Responded 200 (BodyJson nothingFound))
              (lit "rust ownership", lit "google", 5%N) eq_refl) as [H1 [H2 _]].
  split; [exact H1 | rewrite H2; reflexivity].
Defined.



End WhenItFetches.

(** ** The query inside the address *)

Section EncodedQuery.

Import JS SearchResults.

Local Open Scope N_scope.

Lemma hexDigit_unreserved (n : N) : n < 16 -> isUnreserved (hexDigit n) = true.
Proof.
  intros H. unfold hexDigit, isUnreserved, inRange.
  destruct (N.ltb n 10) eqn:E.
  - apply N.ltb_lt in E.
    replace (N.leb 48 (48 + n) && N.leb (48 + n) 57) with true;
      [now rewrite !orb_true_r|].
    symmetry. rewrite andb_true_iff, !N.leb_le. lia.
  - apply N.ltb_ge in E.
    replace (N.leb 65 (55 + n) && N.leb (55 + n) 90) with true; [reflexivity|].
    symmetry. rewrite andb_true_iff, !N.leb_le. lia.
Qed.

Lemma percent_safe (b : N) : b < 256 -> forallb isSafe (percent b) = true.
Proof.
  intros H. unfold percent. cbn [forallb]. unfold isSafe at 2 3.
  rewrite !hexDigit_unreserved; [reflexivity | |].
  - apply N.mod_lt. discriminate.
  - apply N.Div0.div_lt_upper_bound. exact H.
Qed.

Lemma utf8_bytes (cp : N) : cp < 1114112 -> Forall (fun b => b < 256) (utf8 cp).
Proof.
  intros H. unfold utf8.
  assert (M : forall x, 128 + x mod 64 < 256)
    by (intros x; pose proof (N.mod_lt x 64 ltac:(discriminate)); lia).
  destruct (N.ltb cp 128) eqn:E1; [apply N.ltb_lt in E1; repeat constructor; lia|].
  destruct (N.ltb cp 2048) eqn:E2.
  - apply N.ltb_lt in E2. repeat constructor; [|apply M].
    assert (cp / 64 < 32) by (apply N.Div0.div_lt_upper_bound; lia). lia.
  - destruct (N.ltb cp 65536) eqn:E3.
    + apply N.ltb_lt in E3. repeat constructor; [|apply M|apply M].
      assert (cp / 4096 < 16) by (apply N.Div0.div_lt_upper_bound; lia). lia.
    + repeat constructor; [|apply M|apply M|apply M].
      assert (cp / 262144 < 5) by (apply N.Div0.div_lt_upper_bound; lia). lia.
Qed.

Lemma surrogate_pair_bound (c d : N) :
  isHighSurrogate c = true -> isLowSurrogate d = true ->
  65536 + (c - 55296) * 1024 + (d - 56320) < 1114112.
Proof.
  unfold isHighSurrogate, isLowSurrogate, inRange.
  rewrite !andb_true_iff, !N.leb_le. lia.
Qed.

Lemma percent_bytes_safe (bytes : list N) :
  Forall (fun b => b < 256) bytes -> forallb isSafe (flat_map percent bytes) = true.
Proof.
  induction 1 as [|b bytes Hb _ IH]; [reflexivity|].
  cbn [flat_map]. rewrite forallb_app, IH, percent_safe; [reflexivity | exact Hb].
Qed.

Lemma encode_safe (q : jsstr) :
  Forall (fun c => c < 65536) q ->
  forall encoded, encodeURIComponent q = Some encoded ->
  forallb isSafe encoded = true.
Proof.
  remember (List.length q) as n eqn:Hn. revert q Hn.
  induction n as [n IH] using lt_wf_ind. intros q Hn Hq encoded.
  destruct q as [|c q]; [now intros [= <-]|].
  inversion Hq as [|? ? Hc Hq']; subst. cbn [encodeURIComponent].
  destruct (isUnreserved c) eqn:Eu.
  - destruct (encodeURIComponent q) as [enc|] eqn:E; [|discriminate].
    intros [= <-]. cbn [forallb]. unfold isSafe at 1. rewrite Eu. cbn [orb andb].
    apply (IH (List.length q)) with (q := q); [cbn; lia | reflexivity | exact Hq' | exact E].
  - destruct (isLowSurrogate c); [discriminate|].
    destruct (isHighSurrogate c) eqn:Eh.
    + destruct q as [|d q]; [discriminate|].
      destruct (isLowSurrogate d) eqn:El; [|discriminate].
      destruct (encodeURIComponent q) as [enc|] eqn:E; [|discriminate].
      intros [= <-]. rewrite forallb_app. apply andb_true_iff. split.
      * apply percent_bytes_safe, utf8_bytes.
        exact (surrogate_pair_bound c d Eh El).
      * inversion Hq' as [|? ? _ Hq'']; subst.
        apply (IH (List.length q)) with (q := q);
          [cbn; lia | reflexivity | exact Hq'' | exact E].
    + destruct (encodeURIComponent q) as [enc|] eqn:E; [|discriminate].
      intros [= <-]. rewrite forallb_app. apply andb_true_iff. split.
      * apply percent_bytes_safe, utf8_bytes. lia.
      * apply (IH (List.length q)) with (q := q);
          [cbn; lia | reflexivity | exact Hq' | exact E].
Qed.

(** X17.  Whatever the user typed, the query inside the address is made of
    letters, digits, [- _ . ! ~ * ' ( )] and [%] only: it holds no [&], [=],
    [#], [?], [/] or space, so a query cannot add a parameter of its own or
    cut the address short. *)
Theorem query_cannot_break_address (q e : jsstr) (n : N) (address : jsstr) :
  Forall (fun c => c < 65536) q ->
  searchUrl q e n = Some address ->
  exists encoded,
    address =
      lit "http://https://azizah.onrender.com/api/search/?query=" ++ encoded ++
      lit "&search_engine=" ++ e ++ lit "&num_results=" ++ decimalN n /\
    forallb isSafe encoded = true /\
    (forall c, In c [38; 61; 35; 63; 47; 32] -> ~ In c encoded).
Proof.
  intros Hq H. destruct (searchUrl_built q e n address H) as [encoded [He ->]].
  exists encoded. split; [reflexivity|].
  pose proof (encode_safe q Hq encoded He) as Hs. split; [exact Hs|].
  intros c Hc Hin. rewrite forallb_forall in Hs. specialize (Hs c Hin).
  cbn [In] in Hc.
  destruct Hc as [<-|[<-|[<-|[<-|[<-|[<-|[]]]]]]]; discriminate.
Qed.

Lemma query_cannot_break_address_witness :
  exists encoded,
    searchUrl (lit "a&b=c #d") (lit "google") 10 =
      Some (lit "http://https://azizah.onrender.com/api/search/?query=" ++ encoded ++
            lit "&search_engine=" ++ lit "google" ++ lit "&num_results=" ++ decimalN 10) /\
    ~ In 38 encoded.
Proof.
  destruct (query_cannot_break_address (lit "a&b=c #d") (lit "google") 10
              (lit "http://https://azizah.onrender.com/api/search/?query=a%26b%3Dc%20%23d&search_engine=google&num_results=10"))
    as [encoded [E [_ H]]].
  - vm_compute. repeat constructor.
  - reflexivity.
  - exists encoded. split; [now rewrite <- E|]. apply H. now left.
Defined.

Lemma encode_unreserved (q : jsstr) :
  forallb isUnreserved q = true -> encodeURIComponent q = Some q.
Proof.
  induction q as [|c q IH]; [reflexivity|].
  cbn [forallb]. intros H. apply andb_true_iff in H as [Hc Hq].
  cbn [encodeURIComponent]. now rewrite Hc, (IH Hq).
Qed.

Lemma encode_defined (q : jsstr) :
  forallb (fun c => negb (isSurrogate c)) q = true ->
  encodeURIComponent q <> None.
Proof.
  induction q as [|c q IH]; [discriminate|].
  cbn [forallb]. intros H. apply andb_true_iff in H as [Hc Hq].
  unfold isSurrogate in Hc. apply negb_true_iff, orb_false_iff in Hc as [Hh Hl].
  cbn [encodeURIComponent]. specialize (IH Hq).
  destruct (encodeURIComponent q); [|congruence].
  rewrite Hh, Hl. destruct (isUnreserved c); discriminate.
Qed.

(** X18.  A query without surrogate code units always gives an address, so
    its fetch is always sent; a query of letters, digits and
    [- _ . ! ~ * ' ( )] stands in the address as it was typed. *)
Theorem plain_query_in_address (q e : jsstr) (n : N) :
  (forallb (fun c => negb (isSurrogate c)) q = true -> searchUrl q e n <> None) /\
  (forallb isUnreserved q = true ->
   searchUrl q e n =
     Some (lit "http://https://azizah.onrender.com/api/search/?query=" ++ q ++
           lit "&search_engine=" ++ e ++ lit "&num_results=" ++ decimalN n)).
Proof.
  split; intros H; unfold searchUrl.
  - pose proof (encode_defined q H). destruct (encodeURIComponent q); [discriminate|congruence].
  - now rewrite (encode_unreserved q H).
Qed.

Lemma plain_query_in_address_witness :
  searchUrl (lit "rust") (lit "bing") 10 =
    Some (lit "http://https://azizah.onrender.com/api/search/?query=rust&search_engine=bing&num_results=10").
Proof.
  rewrite (proj2 (plain_query_in_address (lit "rust") (lit "bing") 10) eq_refl).
  reflexivity.
Defined.

(** X19.  For every page address, the address the content fetcher builds
    has the scheme [http] and the host [https], like the one of the text
    search; the image search always addresses [localhost]. *)
Theorem content_and_image_hosts :
  (forall u address,
     contentUrl u = Some address ->
     Url.scheme address = lit "http" /\ Url.host address = Some (lit "https")) /\
  (forall q e n address,
     ImageSearch.imageSearchUrl q e n = Some address ->
     Url.scheme address = lit "http" /\
     Url.authority address = Some (lit "localhost:10000") /\
     Url.host address = Some (lit "localhost")).
Proof.
  split.
  - intros u address. unfold contentUrl.
    destruct (encodeURIComponent u); [|discriminate]. intros [= <-]. split; reflexivity.
  - intros q e n address. unfold ImageSearch.imageSearchUrl.
    destruct (encodeURIComponent q); [|discriminate]. intros [= <-].
    repeat split.
Qed.

Lemma content_and_image_hosts_witness :
  option_map Url.host (contentUrl pageA) = Some (Some (lit "https")).
Proof.
  destruct (contentUrl pageA) as [address|] eqn:E; [|discriminate].
  cbn [option_map]. f_equal.
  exact (proj2 (proj1 content_and_image_hosts pageA address E)).
Defined.

End EncodedQuery.

(** ** The content view *)

Section ContentView.

Import JS SearchResults ResultsView.

Lemma vorDefault_truthy (a : value) (d : json) :
  truthy (Some d) = true -> truthy (Some (vorDefault a d)) = true.
Proof.
  intros Hd. unfold vorDefault. destruct a as [j|]; [|exact Hd].
  destruct (truthy (Some j)) eqn:E; [exact E | exact Hd].
Qed.

(** X20.  What the content view shows is never empty: a successful content
    fetch opens the view for the address of its own call, with the extracted
    text when there is some and with "No content extracted" when the text is
    missing or empty. *)
Theorem content_view_never_empty (u : jsstr) (address : option jsstr)
  (r : Fetched) (st : State) (shown : json) :
  contentAttempt address r = Return (Some shown) ->
  truthy (Some shown) = true /\
  fst (fetchPageContent_settle u (contentAttempt address r) st) =
    setLoadingContent false (setContentView (Some {| url := u; content := shown |}) st) /\
  snd (fetchPageContent_settle u (contentAttempt address r) st) = [] /\
  exists status data c,
    r = Responded status (BodyJson data) /\ ok status = true /\
    getProp (Some data) (lit "content") = Return c /\ truthy c = true /\
    (truthy (optProp c (lit "content")) = false ->
     shown = JStr (lit "No content extracted")) /\
    (forall text, optProp c (lit "content") = Some text ->
       truthy (Some text) = true -> shown = text).
Proof.
  intros H. rewrite H. cbn [fetchPageContent_settle fst snd].
  unfold contentAttempt in H. destruct address as [a|]; [|discriminate].
  destruct r as [m|status [m|data]]; try discriminate.
  - destruct (negb (ok status)); discriminate.
  - destruct (ok status) eqn:Eo; [|discriminate]. cbn [negb] in H.
    destruct (getProp (Some data) (lit "content")) as [m|c] eqn:Ec; [discriminate|].
    destruct (truthy c) eqn:Et.
    + injection H as <-. split; [now apply vorDefault_truthy|].
      split; [reflexivity|]. split; [reflexivity|].
      exists status, data, c. split; [reflexivity|]. split; [exact Eo|].
      split; [exact Ec|]. split; [exact Et|]. split.
      * intros Hf. unfold vorDefault.
        destruct (optProp c (lit "content")); [now rewrite Hf | reflexivity].
      * intros text Ho Ht. unfold vorDefault. now rewrite Ho, Ht.
    + destruct (truthy (optProp (Some data) (lit "error"))); discriminate.
Qed.

Lemma content_view_never_empty_witness :
  contentView (fst (fetchPageContent pageA emptyPage showingTwo)) =
  Some {| url := pageA; content := JStr (lit "No content extracted") |}.
Proof.
  destruct (content_view_never_empty pageA (contentUrl pageA) emptyPage
              (fetchPageContent_start showingTwo)
              (JStr (lit "No content extracted")) eq_refl) as [_ [H _]].
  unfold fetchPageContent. rewrite H. reflexivity.
Defined.

Lemma afterSummary_completed (log : list AiSummary.Effect) (st : State) :
  afterSummary log st = if completed log then closeContentView st else st.
Proof.
  unfold afterSummary. revert st. induction log as [|e log IH]; intros st; [reflexivity|].
  cbn [fold_left]. rewrite IH. unfold completed. cbn [existsb].
  fold (completed log). destruct e; cbn [onSummaryEffect orb]; try reflexivity.
  destruct (completed log); reflexivity.
Qed.

(** X21.  The summary panel and the content view are tied: when the summary
    for the query arrives, the callback the results component passes down
    closes the content view, whatever page it shows; when the summary fails,
    the content view stays as it is. *)
Theorem summary_closes_content_view (net : nat -> Fetched) (p : Props)
  (st : State) (sst sst' : AiSummary.State) (log : list AiSummary.Effect) :
  query p <> [] ->
  AiSummary.effect net (summaryProps p) sst = Some (sst', log) ->
  (AiSummary.error sst' = None ->
   afterSummary log st = closeContentView st /\
   contentView (afterSummary log st) = None /\
   results (afterSummary log st) = results st) /\
  (AiSummary.error sst' <> None -> afterSummary log st = st).
Proof.
  intros Hq E. rewrite afterSummary_completed.
  destruct (effect_outcome net (summaryProps p) sst sst' log E Hq)
    as [[e [He [_ [_ [Hc _]]]]] | [He [Hc _]]]; rewrite Hc.
  - split; [rewrite He; discriminate | reflexivity].
  - cbn [summaryProps AiSummary.onSummaryComplete].
    split; [intros _; repeat split | congruence].
Qed.

Lemma summary_closes_content_view_witness :
  match AiSummary.effect completes (summaryProps somewhere)
          (AiSummary.initial (summaryProps somewhere)) with
  | Some (sst', log) => contentView (afterSummary log readingPage) = None
  | None => False
  end.
Proof.
  destruct (AiSummary.effect completes (summaryProps somewhere)
              (AiSummary.initial (summaryProps somewhere))) as [[sst' log]|] eqn:E.
  - destruct (summary_closes_content_view completes somewhere readingPage
                (AiSummary.initial (summaryProps somewhere)) sst' log
                ltac:(discriminate) E) as [H _].
    apply H. revert E. vm_compute. now intros [= <- _].
  - vm_compute in E. discriminate.
Defined.

End ContentView.

(** ** The domain on a card *)

Section Domain.

Import JS ResultsView.

Lemma startsWith_app (x y p : jsstr) :
  List.length p <= List.length x -> startsWith (x ++ y) p = startsWith x p.
Proof.
  revert x. induction p as [|a p IH]; intros x H; [reflexivity|].
  destruct x as [|b x]; [cbn in H; lia|].
  cbn [app startsWith]. rewrite IH; [reflexivity | cbn in H; lia].
Qed.

Lemma replaceFirst_absent (s pattern replacement : jsstr) :
  includes s pattern = false -> replaceFirst s pattern replacement = s.
Proof.
  induction s as [|c s IH]; cbn [includes replaceFirst]; intros H;
    apply orb_false_iff in H as [H1 H2]; rewrite H1; [reflexivity|].
  now rewrite (IH H2).
Qed.

Lemma formatDomain_middle (a b : jsstr) :
  includes (a ++ lit "www") (lit "www.") = false ->
  formatDomain (a ++ lit "www." ++ b) = a ++ b.
Proof.
  unfold formatDomain. induction a as [|c a IH]; intros H; [reflexivity|].
  cbn [app includes] in H. apply orb_false_iff in H as [H1 H2].
  cbn [app replaceFirst].
  assert (Hs : startsWith (c :: a ++ lit "www." ++ b) (lit "www.") = false).
  { transitivity (startsWith (c :: a ++ lit "www") (lit "www.")); [|exact H1].
    change (lit "www." ++ b) with (lit "www" ++ lit "." ++ b).
    rewrite app_assoc.
    change (c :: (a ++ lit "www") ++ lit "." ++ b)
      with ((c :: a ++ lit "www") ++ lit "." ++ b).
    apply startsWith_app. cbn [List.length]. rewrite length_app. cbn. lia. }
  rewrite Hs. now rewrite (IH H2).
Qed.

(** X22.  [formatDomain] takes the first "www." out of a domain, wherever it
    stands, and nothing else: a domain without "www." is shown as it is,
    "www." at the front is dropped, and so is a "www." in the middle. *)
Theorem formatDomain_first_www :
  (forall domain, includes domain (lit "www.") = false ->
     formatDomain domain = domain) /\
  (forall rest, formatDomain (lit "www." ++ rest) = rest) /\
  (forall a b, includes (a ++ lit "www") (lit "www.") = false ->
     formatDomain (a ++ lit "www." ++ b) = a ++ b).
Proof.
  split; [|split].
  - intros domain H. now apply replaceFirst_absent.
  - intros rest. reflexivity.
  - exact formatDomain_middle.
Qed.

Lemma formatDomain_first_www_witness :
  formatDomain (lit "docs.www.example.com") = lit "docs.example.com" /\
  formatDomain (lit "example.com") = lit "example.com".
Proof.
  destruct formatDomain_first_www as [H1 [_ H3]]. split.
  - apply (H3 (lit "docs.") (lit "example.com")). reflexivity.
  - apply H1. reflexivity.
Defined.

End Domain.

(** ** The placeholder results *)

Section Placeholder.

Import JS MockResults.

(** X23.  For every query and feature the placeholder list has five
    entries with the ids "1" to "5", no two alike; the badge reads
    "5 results"; and every title and every snippet holds the query. *)
Theorem mockResults_five (query feature : jsstr) :
  map id (mockResults query feature) =
    [lit "1"; lit "2"; lit "3"; lit "4"; lit "5"] /\
  NoDup (map id (mockResults query feature)) /\
  countBadge (mockResults query feature) = lit "5 results" /\
  Forall (fun r => Occurs query (title r) /\ Occurs query (snippet r))
         (mockResults query feature).
Proof.
  split; [reflexivity|]. split.
  - cbn [map mockResults id]. repeat constructor; cbn [In]; intuition discriminate.
  - split; [reflexivity|].
    unfold mockResults, Occurs. repeat constructor; cbn [title snippet].
    all: first
      [ exists [], (lit " - Official Documentation"); reflexivity
      | exists (lit "Comprehensive guide about "); eexists; reflexivity
      | exists (lit "Understanding "); eexists; reflexivity
      | exists (lit "An in-depth analysis of "); eexists; rewrite <- ?app_assoc; reflexivity
      | exists [], (lit " Implementation Strategies"); reflexivity
      | exists (lit "Learn how to implement "); eexists; reflexivity
      | exists (lit "The Future of "); eexists; reflexivity
      | exists (lit "Exploring upcoming trends and innovations in "); eexists; reflexivity
      | exists [], (lit " vs. Alternative Approaches"); reflexivity
      | exists (lit "Comparative analysis of "); eexists; reflexivity ].
Qed.

End Placeholder.
